(** * Task management API: the five handlers of main.go over a model of the
      MANAGEMENT table.

    The program is one Go file.  Its handlers decode a request, call the Go
    standard library ([time.Parse], [Time.Format]), run one to three SQL
    statements through database/sql on a SQLite file, and answer with
    [c.JSON].  The handlers below are written statement by statement after
    main.go; what they call outside the repository is modelled in the
    modules that come first:

    - [time]: [time.Parse] and [Time.Format] for the one layout the program
      uses, "2006-01-02";
    - [sqlite]: the MANAGEMENT table, the five SQL statements of main.go, and
      how SQLite compares a text parameter with the INTEGER PRIMARY KEY;
    - [Driver]: what [Scan] hands back for the [due_date] column, which the
      schema declares as DATE.  The handlers are parametric in it. *)

From Stdlib Require Import ZArith List String Ascii Bool Lia.
Import ListNotations.
Local Open Scope string_scope.
Local Open Scope Z_scope.

(** ** Go's package time, for the layout "2006-01-02" *)

Module time.

(** A parsed calendar date.  [time.Parse] with a date-only layout gives
    midnight UTC of that day; only the three fields are kept. *)
Record Time := Date { Year : Z; Month : Z; Day : Z }.

(** [isDigit(s, 0)] on the first byte. *)
Definition isDigit (c : ascii) : bool :=
  (48 <=? Z.of_nat (nat_of_ascii c)) && (Z.of_nat (nat_of_ascii c) <=? 57).

(** [int(c - '0')]. *)
Definition digit (c : ascii) : Z := Z.of_nat (nat_of_ascii c) - 48.

(** stdLongYear ("2006"): at least four bytes, and [atoi] of the first four
    succeeds, so all four are digits (the first one a digit excludes a
    sign). *)
Definition longYear (value : string) : option (Z * string) :=
  match value with
  | String a (String b (String c (String d rest))) =>
      if isDigit a && isDigit b && isDigit c && isDigit d
      then Some (digit a * 1000 + digit b * 100 + digit c * 10 + digit d, rest)
      else None
  | _ => None
  end.

(** [getnum(s, fixed)] with [fixed = true] (stdZeroMonth "01", stdZeroDay
    "02"): exactly two digits. *)
Definition getnum (s : string) : option (Z * string) :=
  match s with
  | String a (String b rest) =>
      if isDigit a && isDigit b then Some (digit a * 10 + digit b, rest) else None
  | _ => None
  end.

(** [skip(value, "-")]: the literal between two fields. *)
Definition skip (prefix : ascii) (value : string) : option string :=
  match value with
  | String a rest => if Ascii.eqb a prefix then Some rest else None
  | EmptyString => None
  end.

Definition isLeap (year : Z) : bool :=
  (year mod 4 =? 0) && (negb (year mod 100 =? 0) || (year mod 400 =? 0)).

Definition daysIn (m year : Z) : Z :=
  if (m =? 2) && isLeap year then 29
  else match m with
       | 1 | 3 | 5 | 7 | 8 | 10 | 12 => 31
       | 4 | 6 | 9 | 11 => 30
       | 2 => 28
       | _ => 0
       end.

(** [time.Parse("2006-01-02", value)]: year, "-", month (range checked at
    once), "-", day, then no text may be left, then the day is checked
    against the month's length.  [None] is a non-nil error. *)
Definition Parse (value : string) : option Time :=
  match longYear value with
  | None => None
  | Some (year, value) =>
  match skip "-" value with
  | None => None
  | Some value =>
  match getnum value with
  | None => None
  | Some (month, value) =>
  if (month <=? 0) || (12 <? month) then None else
  match skip "-" value with
  | None => None
  | Some value =>
  match getnum value with
  | None => None
  | Some (day, value) =>
  match value with
  | String _ _ => None
  | EmptyString =>
      if (day <? 1) || (daysIn month year <? day) then None
      else Some (Date year month day)
  end end end end end end.

(** ['0' + byte(u)]. *)
Definition utod (u : Z) : ascii := ascii_of_nat (Z.to_nat (48 + u)).

(** The decimal digits of [u], most significant first; [fuel] bounds their
    number. *)
Fixpoint digits (fuel : nat) (u : Z) (acc : string) : string :=
  match fuel with
  | O => acc
  | S fuel =>
      let acc := String (utod (u mod 10)) acc in
      if u / 10 =? 0 then acc else digits fuel (u / 10) acc
  end.

Fixpoint zeros (pad : nat) (s : string) : string :=
  match pad with O => s | S pad => String "0" (zeros pad s) end.

(** [appendInt(b, x, width)]: a sign for a negative [x], then the digits
    padded with zeros to [width]; the two- and four-digit fields take the
    short path, as in the library. *)
Definition appendInt (x : Z) (width : nat) : string :=
  let u := Z.abs x in
  let body :=
    if (Nat.eqb width 2) && (u <? 100) then
      String (utod (u / 10)) (String (utod (u mod 10)) "")
    else if (Nat.eqb width 4) && (u <? 10000) then
      String (utod (u / 1000)) (String (utod (u / 100 mod 10))
        (String (utod (u / 10 mod 10)) (String (utod (u mod 10)) "")))
    else
      let ds := digits (S (Z.to_nat (Z.log2 u))) u "" in
      zeros (width - String.length ds) ds in
  if x <? 0 then String "-" body else body.

(** [t.Format("2006-01-02")]. *)
Definition Format (t : Time) : string :=
  appendInt (Year t) 4 ++ "-" ++ appendInt (Month t) 2 ++ "-" ++ appendInt (Day t) 2.

(** [t.Format(time.RFC3339Nano)] for a date at midnight UTC: no fractional
    second is printed and the zone is "Z". *)
Definition FormatRFC3339Nano (t : Time) : string :=
  Format t ++ "T00:00:00Z".

End time.

(** ** SQLite: the MANAGEMENT table and the statements of main.go *)

Module sqlite.

(** [sqlite3Isspace]: space, tab, line feed, vertical tab, form feed,
    carriage return. *)
Definition isspace (c : ascii) : bool :=
  let n := Z.of_nat (nat_of_ascii c) in (n =? 32) || ((9 <=? n) && (n <=? 13)).

Fixpoint skipSpaces (z : string) : string :=
  match z with
  | String c rest => if isspace c then skipSpaces rest else z
  | EmptyString => EmptyString
  end.

(** A run of decimal digits: the number read so far, how many digits were
    read, and the text left. *)
Fixpoint leadingDigits (z : string) (acc n : Z) : Z * Z * string :=
  match z with
  | String c rest =>
      if time.isDigit c then leadingDigits rest (acc * 10 + time.digit c) (n + 1)
      else (acc, n, z)
  | EmptyString => (acc, n, EmptyString)
  end.

Definition optionalSign (z : string) : bool * string :=
  match z with
  | String "-" rest => (true, rest)
  | String "+" rest => (false, rest)
  | _ => (false, z)
  end.

(** A text that SQLite reads as a number: [significand * 10 ^ exponent];
    [real] says that a decimal point or an exponent was written, so that the
    text is a real literal and not an integer literal. *)
Record Numeric := { significand : Z; exponent : Z; real : bool }.

(** The syntax [sqlite3AtoF] accepts for a whole string: optional spaces, an
    optional sign, digits with an optional decimal point (at least one digit
    in all), an optional exponent with at least one digit, optional
    spaces.  Anything else is not a number. *)
Definition numericLiteral (z : string) : option Numeric :=
  let (neg, z) := optionalSign (skipSpaces z) in
  let '(m, nInt, z) := leadingDigits z 0 0 in
  let '(m, nFrac, z, point) :=
    match z with
    | String "." rest => let '(m, k, z) := leadingDigits rest m 0 in (m, k, z, true)
    | _ => (m, 0, z, false)
    end in
  if nInt + nFrac =? 0 then None else
  let m := if neg then - m else m in
  match z with
  | String c rest =>
      if Ascii.eqb c "e" || Ascii.eqb c "E" then
        let (eneg, z) := optionalSign rest in
        let '(e, nExp, z) := leadingDigits z 0 0 in
        if nExp =? 0 then None else
        match skipSpaces z with
        | EmptyString =>
            Some {| significand := m; exponent := (if eneg then - e else e) - nFrac;
                    real := true |}
        | _ => None
        end
      else
        match skipSpaces z with
        | EmptyString => Some {| significand := m; exponent := - nFrac; real := point |}
        | _ => None
        end
  | EmptyString => Some {| significand := m; exponent := - nFrac; real := point |}
  end.

(** [num / den] rounded to the nearest integer, a tie to the even one
    ([den] positive). *)
Definition roundHalfEven (num den : Z) : Z :=
  let k := num / den in
  let rem := num mod den in
  if 2 * rem <? den then k
  else if den <? 2 * rem then k + 1
  else if Z.even k then k else k + 1.

(** The [e] with [2 ^ e <= num / den < 2 ^ (e + 1)] ([num], [den]
    positive). *)
Definition log2Ratio (num den : Z) : Z :=
  let e := Z.log2 num - Z.log2 den in
  if (if 0 <=? e then den * 2 ^ e <=? num else den <=? num * 2 ^ (- e)) then e else e - 1.

(** The double nearest to [num / den] ([num] not negative, [den] positive),
    as the pair [(k, q)] that stands for [k * 2 ^ q]: 53 bits of significand,
    a tie rounded to the even significand, and no exponent below that of the
    subnormal numbers. *)
Definition nearestDouble (num den : Z) : Z * Z :=
  if num =? 0 then (0, 0) else
  let q := Z.max (log2Ratio num den - 52) (- 1074) in
  (if 0 <=? q then roundHalfEven num (den * 2 ^ q) else roundHalfEven (num * 2 ^ (- q)) den, q).

(** The integer that the double [k * 2 ^ q] is, when it is one. *)
Definition integerOfDouble (k q : Z) : option Z :=
  if 0 <=? q then Some (k * 2 ^ q)
  else if k mod 2 ^ (- q) =? 0 then Some (k / 2 ^ (- q)) else None.

(** A real literal is converted to a double, and the double to an integer
    when it has an integer value.  The conversion to a double is taken as
    correctly rounded; SQLite's [sqlite3AtoF] is so up to the last bit on
    literals of more than 19 significant digits, where its versions
    differ. *)
Definition integerOfReal (x : Numeric) : option Z :=
  let num := Z.abs (significand x) * 10 ^ Z.max (exponent x) 0 in
  let den := 10 ^ Z.max (- exponent x) 0 in
  let (k, q) := nearestDouble num den in
  option_map (fun n => if significand x <? 0 then - n else n) (integerOfDouble k q).

Definition maxRowid : Z := 9223372036854775807.
Definition minRowid : Z := - 9223372036854775808.

(** [WHERE id = ?] with a text parameter.  [id] has INTEGER affinity and the
    parameter has none, so SQLite applies NUMERIC affinity to the parameter
    before comparing.  A text that is an integer literal within the 64-bit
    range becomes that integer.  Any other well-formed numeric text (a real
    literal, or an integer literal out of range) becomes a double, and the
    double becomes an integer when it has an integer value strictly inside
    the 64-bit range.  Any other text stays TEXT, and a double without an
    integer value stays REAL: neither equals an INTEGER.  The result is the
    rowid the parameter can equal, if any. *)
Definition rowidOfText (param : string) : option Z :=
  match numericLiteral param with
  | None => None
  | Some x =>
      if negb (real x) && (minRowid <=? significand x) && (significand x <=? maxRowid)
      then Some (significand x)
      else
        match integerOfReal x with
        | Some v => if (minRowid <? v) && (v <? maxRowid) then Some v else None
        | None => None
        end
  end.

(** One row of MANAGEMENT (id, title, description, due_date, status).  The
    handlers bind Go strings only, so no column is ever NULL.  title,
    description and status hold the strings that were bound.  due_date is
    recorded by the text that was bound; the column has NUMERIC affinity, so
    for a numeric text SQLite keeps the number, and what a read makes of the
    cell is the driver's part (see [Driver] below). *)
Record Row := {
  id : Z;
  title : string;
  description : string;
  due_date : string;
  status : string
}.

(** The table in rowid order, and the AUTOINCREMENT counter SQLite keeps in
    sqlite_sequence: the largest rowid ever assigned. *)
Record Table := { rows : list Row; seq : Z }.

Definition empty : Table := {| rows := []; seq := 0 |}.

Definition whereId (param : string) (r : Row) : bool :=
  match rowidOfText param with
  | Some k => id r =? k
  | None => false
  end.

(** INSERT INTO MANAGEMENT (title, description, due_date, status)
    VALUES (?, ?, ?, ?): the new rowid is one more than the largest ever
    assigned; when that was the largest possible rowid the statement fails
    (SQLITE_FULL).  The result carries LastInsertId. *)
Definition INSERT (title description due_date status : string) (t : Table)
  : option (Z * Table) :=
  if seq t <? maxRowid then
    let rowid := seq t + 1 in
    Some (rowid,
          {| rows := rows t ++ [ {| id := rowid; title := title; description := description;
                                    due_date := due_date; status := status |} ];
             seq := rowid |})
  else None.

(** SELECT id, title, description, due_date, status FROM MANAGEMENT
    WHERE id = ?: the first row of the result, if any. *)
Definition SELECT_WHERE_id (param : string) (t : Table) : option Row :=
  find (whereId param) (rows t).

(** UPDATE MANAGEMENT SET title = ?, description = ?, due_date = ?,
    status = ? WHERE id = ?. *)
Definition UPDATE (title description due_date status param : string) (t : Table) : Table :=
  {| rows := map (fun r => if whereId param r
                           then {| id := id r; title := title; description := description;
                                   due_date := due_date; status := status |}
                           else r) (rows t);
     seq := seq t |}.

(** DELETE FROM MANAGEMENT WHERE id = ?: the result carries RowsAffected. *)
Definition DELETE (param : string) (t : Table) : Z * Table :=
  (Z.of_nat (List.length (filter (whereId param) (rows t))),
   {| rows := filter (fun r => negb (whereId param r)) (rows t); seq := seq t |}).

(** SELECT id, title, description, due_date, status FROM MANAGEMENT: all
    rows in rowid order. *)
Definition SELECT (t : Table) : list Row := rows t.

End sqlite.

(** ** The program's types *)

(** [type Task struct]: the JSON shape of a request body and of a reply. *)
Record Task := {
  ID : Z;
  Title : string;
  Description : string;
  DueDate : string;
  Status : string
}.

(** What [c.JSON] is given: a Task, a slice of Tasks, or a one-entry
    [gin.H] map. *)
Inductive JSON :=
| OneTask (t : Task)
| Tasks (ts : list Task)
| H (key value : string).

Record Response := { code : Z; body : JSON }.

Module http.
Definition StatusOK : Z := 200.
Definition StatusCreated : Z := 201.
Definition StatusBadRequest : Z := 400.
Definition StatusNotFound : Z := 404.
Definition StatusInternalServerError : Z := 500.
End http.

(** The error taxonomy of the specification, read off the status code:
    400 InvalidInput, 404 NotFound, 500 StoreFailure. *)
Inductive ErrorKind := InvalidInput | NotFound | StoreFailure.

Definition errorKind (r : Response) : option ErrorKind :=
  if code r =? http.StatusBadRequest then Some InvalidInput
  else if code r =? http.StatusNotFound then Some NotFound
  else if code r =? http.StatusInternalServerError then Some StoreFailure
  else None.

(** The text of a [gin.H] reply, in lower case: the specification quotes the
    messages without the capital the program writes. *)
Definition lower (c : ascii) : ascii :=
  let n := nat_of_ascii c in
  if (65 <=? n)%nat && (n <=? 90)%nat then ascii_of_nat (n + 32) else c.

Fixpoint toLower (s : string) : string :=
  match s with
  | String c rest => String (lower c) (toLower rest)
  | EmptyString => EmptyString
  end.

Definition message (r : Response) : option string :=
  match body r with
  | H _ value => Some (toLower value)
  | _ => None
  end.

(** ** The database driver *)

(** main.go scans the [due_date] column, declared DATE, into a Go string.
    What arrives is decided by the driver and by database/sql, not by the
    program, so it is a parameter of the handlers: [ScanDate v] is the string
    [Scan] stores for a cell that was written from the bound text [v].  The
    other three text columns are declared TEXT and come back as written. *)
Record Driver := { ScanDate : string -> string }.

(** [strings.TrimSuffix(s, "Z")]. *)
Fixpoint TrimSuffixZ (s : string) : string :=
  match s with
  | String "Z" EmptyString => EmptyString
  | String c rest => String c (TrimSuffixZ rest)
  | EmptyString => EmptyString
  end.

(** github.com/mattn/go-sqlite3, the driver main.go imports.  For a column
    whose declared type is "date" (also "datetime", "timestamp") its
    [Next] does not hand the stored text to database/sql: it trims a final
    "Z", tries its timestamp layouts on the text in turn, and hands over the
    [time.Time] of the first that fits.  [Scan] then converts a
    [time.Time] for a [*string] destination with
    [Format(time.RFC3339Nano)].  Of the driver's layouts only the last one,
    "2006-01-02", has no time of day: a text it fits is too short for the
    others, which all go on with an hour.  This is the case modelled, the
    case of every text [createTask] writes.  [other] stands for what the
    driver makes of any other stored value: a text in one of the longer
    layouts, a numeric text (which the NUMERIC affinity of a DATE column
    keeps as a number), a text in no layout (the zero time). *)
Definition go_sqlite3 (other : string -> string) : Driver :=
  {| ScanDate := fun v =>
       match time.Parse (TrimSuffixZ v) with
       | Some t => time.FormatRFC3339Nano t
       | None => other v
       end |}.

(** The member used at the sample requests below: for a text in none of its
    layouts the driver hands over the zero time. *)
Definition go_sqlite3_dates : Driver :=
  go_sqlite3 (fun _ => "0001-01-01T00:00:00Z").

(** A driver that hands the stored text back unchanged. *)
Definition verbatim : Driver := {| ScanDate := fun v => v |}.

(** ** The process state and the store calls *)

(** [var db *sql.DB]: the table behind the handle, and the outcome of the
    store calls still to come ([true]: the call returns an error, as a
    closed, locked or broken database file makes it; a call past the end of
    the list succeeds).  A call that fails leaves the table as it was. *)
Record World := { db : sqlite.Table; errs : list bool }.

Definition M (A : Type) : Type := World -> A * World.

Definition ret {A} (a : A) : M A := fun w => (a, w).

Definition bind {A B} (m : M A) (k : A -> M B) : M B :=
  fun w => let (a, w) := m w in k a w.

Declare Scope handler_scope.
Delimit Scope handler_scope with handler.
Notation "x <- m ;; k" := (bind m (fun x => k))
  (at level 100, m at next level, right associativity) : handler_scope.
Local Open Scope handler_scope.

(** Whether the next store call returns an error. *)
Definition storeError : M bool :=
  fun w =>
    match errs w with
    | [] => (false, w)
    | e :: es => (e, {| db := db w; errs := es |})
    end.

Definition getTable : M sqlite.Table := fun w => (db w, w).

Definition putTable (t : sqlite.Table) : M unit :=
  fun w => (tt, {| db := t; errs := errs w |}).

Section Handlers.

Variable driver : Driver.

(** [Scan(&task.ID, &task.Title, &task.Description, &task.DueDate,
    &task.Status)] on one row.  The id is an int64 stored in a Go [int]
    (64 bits wide on the platforms the driver supports). *)
Definition Scan (r : sqlite.Row) : Task :=
  {| ID := sqlite.id r;
     Title := sqlite.title r;
     Description := sqlite.description r;
     DueDate := ScanDate driver (sqlite.due_date r);
     Status := sqlite.status r |}.

(** [db.Exec(INSERT ...)] followed by [result.LastInsertId()]; [None] is
    [err != nil]. *)
Definition ExecInsert (title description due_date status : string) : M (option Z) :=
  failed <- storeError ;;
  if failed : bool then ret None else
  t <- getTable ;;
  match sqlite.INSERT title description due_date status t with
  | None => ret None
  | Some (taskID, t) => _ <- putTable t ;; ret (Some taskID)
  end.

(** [db.QueryRow(SELECT ... WHERE id = ?, taskID).Scan(...)]; [None] is
    [err != nil]: the query failed or it has no row ([sql.ErrNoRows]). *)
Definition QueryRowScan (taskID : string) : M (option Task) :=
  failed <- storeError ;;
  if failed : bool then ret None else
  t <- getTable ;;
  ret (option_map Scan (sqlite.SELECT_WHERE_id taskID t)).

(** [db.Exec(UPDATE ...)]; [false] is [err != nil]. *)
Definition ExecUpdate (title description due_date status taskID : string) : M bool :=
  failed <- storeError ;;
  if failed : bool then ret false else
  t <- getTable ;;
  _ <- putTable (sqlite.UPDATE title description due_date status taskID t) ;;
  ret true.

(** [db.Exec(DELETE ...)] followed by [result.RowsAffected()]; [None] is
    [err != nil]. *)
Definition ExecDelete (taskID : string) : M (option Z) :=
  failed <- storeError ;;
  if failed : bool then ret None else
  t <- getTable ;;
  let (rowsAffected, t) := sqlite.DELETE taskID t in
  _ <- putTable t ;;
  ret (Some rowsAffected).

(** [db.Query(SELECT ...)] and the loop [for rows.Next() { rows.Scan(...);
    tasks = append(tasks, task) }]; [None] is [err != nil] from [Query].
    No column is NULL and every value the driver hands over converts to the
    type of its field, so [Scan] does not fail and the reply "Failed to scan
    tasks" is never sent.  An error while stepping through the rows, which
    the loop does not tell from the end of the rows, is outside this
    model. *)
Definition QueryScanAll : M (option (list Task)) :=
  failed <- storeError ;;
  if failed : bool then ret None else
  t <- getTable ;;
  ret (Some (map Scan (sqlite.SELECT t))).

Definition JSONreply (code : Z) (obj : JSON) : M Response :=
  ret {| code := code; body := obj |}.

(** ** The handlers of main.go

    A handler takes what gin extracted from the request and returns what it
    passed to [c.JSON].  [payload] is the outcome of [c.ShouldBindJSON]:
    [None] when it returned an error, else the decoded Task. *)

Definition createTask (payload : option Task) : M Response :=
  match payload with
  | None => JSONreply http.StatusBadRequest (H "error" "Invalid request payload")
  | Some newTask =>
      (* Parse the due_date string to a time.Time value *)
      match time.Parse (DueDate newTask) with
      | None => JSONreply http.StatusBadRequest (H "error" "Invalid due_date format")
      | Some dueDate =>
          (* Format the time.Time value back to a string in the desired format *)
          let newTask := {| ID := ID newTask; Title := Title newTask;
                            Description := Description newTask;
                            DueDate := time.Format dueDate;
                            Status := Status newTask |} in
          result <- ExecInsert (Title newTask) (Description newTask)
                               (DueDate newTask) (Status newTask) ;;
          match result with
          | None => JSONreply http.StatusInternalServerError (H "error" "Failed to create task")
          | Some taskID =>
              let newTask := {| ID := taskID; Title := Title newTask;
                                Description := Description newTask;
                                DueDate := DueDate newTask;
                                Status := Status newTask |} in
              JSONreply http.StatusCreated (OneTask newTask)
          end
      end
  end.

Definition retrieveTask (taskID : string) : M Response :=
  row <- QueryRowScan taskID ;;
  match row with
  | None => JSONreply http.StatusNotFound (H "error" "Task not found")
  | Some task => JSONreply http.StatusOK (OneTask task)
  end.

Definition updateTask (taskID : string) (payload : option Task) : M Response :=
  match payload with
  | None => JSONreply http.StatusBadRequest (H "error" "Invalid request payload")
  | Some updatedTask =>
      (* Check if the task with the given ID exists *)
      existingTask <- QueryRowScan taskID ;;
      match existingTask with
      | None => JSONreply http.StatusNotFound (H "error" "Task not found")
      | Some _ =>
          (* Perform the update *)
          ok <- ExecUpdate (Title updatedTask) (Description updatedTask)
                           (DueDate updatedTask) (Status updatedTask) taskID ;;
          if ok : bool then
            (* Retrieve the updated task details *)
            updatedTaskDetails <- QueryRowScan taskID ;;
            match updatedTaskDetails with
            | None => JSONreply http.StatusInternalServerError
                        (H "error" "Failed to retrieve updated task details")
            | Some details => JSONreply http.StatusOK (OneTask details)
            end
          else JSONreply http.StatusInternalServerError (H "error" "Failed to update task")
      end
  end.

Definition deleteTask (taskID : string) : M Response :=
  result <- ExecDelete taskID ;;
  match result with
  | None => JSONreply http.StatusInternalServerError (H "error" "Failed to delete task")
  | Some rowsAffected =>
      if rowsAffected =? 0
      then JSONreply http.StatusNotFound (H "error" "Task not found")
      else JSONreply http.StatusOK (H "message" "Task deleted successfully")
  end.

Definition listAllTasks : M Response :=
  result <- QueryScanAll ;;
  match result with
  | None => JSONreply http.StatusInternalServerError (H "error" "Failed to retrieve tasks")
  | Some tasks =>
      if (0 <? Z.of_nat (List.length tasks))
      then JSONreply http.StatusOK (Tasks tasks)
      else JSONreply http.StatusOK (H "message" "No tasks found")
  end.

(** The routes of [main]: POST /MANAGEMENT, GET /MANAGEMENT/:id,
    PUT /MANAGEMENT/:id, DELETE /MANAGEMENT/:id, GET /MANAGEMENT. *)
Inductive Request :=
| POST (payload : option Task)
| GET (taskID : string)
| PUT (taskID : string) (payload : option Task)
| DELETE (taskID : string)
| GETall.

Definition serve (req : Request) : M Response :=
  match req with
  | POST payload => createTask payload
  | GET taskID => retrieveTask taskID
  | PUT taskID payload => updateTask taskID payload
  | DELETE taskID => deleteTask taskID
  | GETall => listAllTasks
  end.

(** The state after serving the requests one after the other. *)
Fixpoint run (reqs : list Request) (w : World) : World :=
  match reqs with
  | [] => w
  | req :: reqs => run reqs (snd (serve req w))
  end.

End Handlers.

(** ** What the properties are stated with *)

(** No store call still to come returns an error. *)
Definition healthy (w : World) : Prop := forallb negb (errs w) = true.

(** The next store call returns an error. *)
Definition nextCallFails (w : World) : Prop := hd false (errs w) = true.

(** A due_date in the form YYYY-MM-DD: it parses with the layout
    "2006-01-02" and is the text that formatting the parsed date gives. *)
Definition canonicalDate (v : string) : bool :=
  match time.Parse v with
  | Some t => String.eqb (time.Format t) v
  | None => false
  end.

(** Every persisted row has a due_date in the form YYYY-MM-DD. *)
Definition datesCanonical (t : sqlite.Table) : bool :=
  forallb (fun r => canonicalDate (sqlite.due_date r)) (sqlite.rows t).

(** [lo < i1 < i2 < ... < in <= hi]. *)
Fixpoint ascending (lo : Z) (ids : list Z) (hi : Z) : bool :=
  match ids with
  | [] => lo <=? hi
  | i :: ids => (lo <? i) && ascending i ids hi
  end.

(** The table as the handlers keep it: ids are positive, strictly increasing
    in row order (so no two rows share one), and none exceeds the
    AUTOINCREMENT counter. *)
Definition wf (t : sqlite.Table) : Prop :=
  ascending 0 (map sqlite.id (sqlite.rows t)) (sqlite.seq t) = true.






(** The row a Create or an Update writes for a payload. *)
Definition rowOf (rowid : Z) (t : Task) : sqlite.Row :=
  {| sqlite.id := rowid; sqlite.title := Title t; sqlite.description := Description t;
     sqlite.due_date := DueDate t; sqlite.status := Status t |}.

(** ** Sample requests and states *)

Definition milk : Task :=
  {| ID := 0; Title := "Buy milk"; Description := "2%";
     DueDate := "2025-03-10"; Status := "open" |}.

Definition badDate : Task :=
  {| ID := 0; Title := "Buy milk"; Description := "2%";
     DueDate := "2024-13-40"; Status := "open" |}.

Definition someday : Task :=
  {| ID := 0; Title := "Buy oat milk"; Description := "1l";
     DueDate := "next week"; Status := "done" |}.

Definition april : Task :=
  {| ID := 41; Title := "Buy oat milk"; Description := "1l";
     DueDate := "2025-04-01"; Status := "done" |}.

(** A fresh database file: the table was just created. *)
Definition fresh : World := {| db := sqlite.empty; errs := [] |}.

(** The state after [milk] was created in a fresh database. *)
Definition shop : World :=
  {| db := {| sqlite.rows := [rowOf 1 milk]; sqlite.seq := 1 |}; errs := [] |}.

(** The same table behind a database whose next call fails. *)
Definition broken : World :=
  {| db := {| sqlite.rows := [rowOf 1 milk]; sqlite.seq := 1 |}; errs := [true] |}.

(** ** The rest of main.go: the greeting, the routes, the start of the process *)

(** The handler of GET /. *)
Definition greet : M Response :=
  JSONreply http.StatusOK (H "message" "Hello, This is Task Management Api").

(** The six routes [main] registers. *)
Inductive Route :=
| Root
| Management (req : Request).

Definition dispatch (driver : Driver) (route : Route) : M Response :=
  match route with
  | Root => greet
  | Management req => serve driver req
  end.

(** The state after the router served the requests one after the other. *)
Fixpoint serveAll (driver : Driver) (routes : list Route) (w : World) : World :=
  match routes with
  | [] => w
  | route :: routes => serveAll driver routes (snd (dispatch driver route w))
  end.

(** CREATE TABLE IF NOT EXISTS MANAGEMENT (...) on a database file that
    holds the table ([Some]) or does not: an existing table is left as it
    is, a new one is empty. *)
Definition CREATE_TABLE_IF_NOT_EXISTS (file : option sqlite.Table) : sqlite.Table :=
  match file with
  | Some t => t
  | None => sqlite.empty
  end.

(** One run of [main] on the database file, up to the end of the process;
    the result is the file afterwards.  [sql.Open] only looks the driver up,
    which the import registered.  The schema statement is the first store
    call; when it fails, [log.Fatal] ends the process and the file is what it
    was.  [listens] says whether [router.Run] could listen on the port; when
    not, [log.Fatal] ends the process with the table created and no request
    served.  Otherwise the router serves [routes]. *)
Definition main (driver : Driver) (file : option sqlite.Table) (outcomes : list bool)
    (listens : bool) (routes : list Route) : option sqlite.Table :=
  match outcomes with
  | true :: _ => file
  | _ =>
      let w := {| db := CREATE_TABLE_IF_NOT_EXISTS file; errs := tl outcomes |} in
      if listens then Some (db (serveAll driver routes w)) else Some (db w)
  end.

(** One run of the process: the outcomes of its store calls, whether it can
    listen, and the requests it serves. *)
Record Session := { storeErrors : list bool; canListen : bool; requests : list Route }.

(** The database file after the process was run once per session, each run
    starting from the file the one before left. *)
Fixpoint lifetime (driver : Driver) (sessions : list Session) (file : option sqlite.Table)
  : option sqlite.Table :=
  match sessions with
  | [] => file
  | s :: sessions =>
      lifetime driver sessions
        (main driver file (storeErrors s) (canListen s) (requests s))
  end.

(** The decimal spelling of a Go int, as the JSON of a reply gives the id. *)
Definition Itoa (n : Z) : string :=
  if n <? 0 then String "-" (time.digits (S (Z.to_nat (Z.log2 (- n)))) (- n) "")
  else time.digits (S (Z.to_nat (Z.log2 n))) n "".

(** ** More sample states *)

(** The table of [shop] behind a database whose second call fails. *)
Definition writeFails : World :=
  {| db := db shop; errs := [false; true] |}.

(** The table of [shop] behind a database whose third call fails. *)
Definition rereadFails : World :=
  {| db := db shop; errs := [false; false; true] |}.

(** A table whose counter has reached the largest rowid. *)
Definition full : World :=
  {| db := {| sqlite.rows := [rowOf 1 milk]; sqlite.seq := sqlite.maxRowid |}; errs := [] |}.

(** The table that the runs of [twoRuns] below leave when they start from
    the table of [shop]. *)
Definition later : World :=
  {| db := {| sqlite.rows := [rowOf 2 milk; rowOf 3 april; rowOf 4 milk]; sqlite.seq := 4 |};
     errs := [] |}.

(** Two runs of the process: the first creates two tasks and deletes the
    first of them, the second, after a failed start in between, creates one
    more. *)
Definition twoRuns : list Session :=
  [ {| storeErrors := []; canListen := true;
       requests := [Root; Management (POST (Some milk)); Management (POST (Some april));
                    Management (DELETE "1")] |};
    {| storeErrors := [true]; canListen := true; requests := [Management (POST (Some milk))] |};
    {| storeErrors := []; canListen := true; requests := [Management (POST (Some milk))] |} ].

(** * Proofs *)

(** ** Parsing and formatting a date *)

Module time_facts.
Import time.

Lemma isDigit_digit c :
  isDigit c = true -> 0 <= digit c <= 9 /\ utod (digit c) = c.
Proof.
  destruct c as [[] [] [] [] [] [] [] []]; intro Hd;
    try discriminate Hd; (split; [ cbv; split; discriminate | reflexivity ]).
Qed.

Lemma appendInt_2 a b :
  isDigit a = true -> isDigit b = true ->
  appendInt (digit a * 10 + digit b) 2 = String a (String b "").
Proof.
  intros Ha Hb.
  destruct (isDigit_digit a Ha) as [Ra Ea], (isDigit_digit b Hb) as [Rb Eb].
  unfold appendInt.
  set (u := digit a * 10 + digit b).
  assert (Hu : Z.abs u = u) by (apply Z.abs_eq; subst u; lia).
  rewrite Hu.
  replace (u <? 100) with true by (symmetry; apply Z.ltb_lt; subst u; lia).
  replace (u <? 0) with false by (symmetry; apply Z.ltb_ge; subst u; lia).
  cbn [Nat.eqb andb].
  replace (u / 10) with (digit a) by (subst u; Z.div_mod_to_equations; lia).
  replace (u mod 10) with (digit b) by (subst u; Z.div_mod_to_equations; lia).
  now rewrite Ea, Eb.
Qed.

Lemma appendInt_4 a b c d :
  isDigit a = true -> isDigit b = true -> isDigit c = true -> isDigit d = true ->
  appendInt (digit a * 1000 + digit b * 100 + digit c * 10 + digit d) 4
  = String a (String b (String c (String d ""))).
Proof.
  intros Ha Hb Hc Hd.
  destruct (isDigit_digit a Ha) as [Ra Ea], (isDigit_digit b Hb) as [Rb Eb],
    (isDigit_digit c Hc) as [Rc Ec], (isDigit_digit d Hd) as [Rd Ed].
  unfold appendInt.
  set (u := digit a * 1000 + digit b * 100 + digit c * 10 + digit d).
  assert (Hu : Z.abs u = u) by (apply Z.abs_eq; subst u; lia).
  rewrite Hu.
  replace (u <? 10000) with true by (symmetry; apply Z.ltb_lt; subst u; lia).
  replace (u <? 0) with false by (symmetry; apply Z.ltb_ge; subst u; lia).
  cbn [Nat.eqb andb].
  replace (u / 1000) with (digit a) by (subst u; Z.div_mod_to_equations; lia).
  replace (u / 100 mod 10) with (digit b) by (subst u; Z.div_mod_to_equations; lia).
  replace (u / 10 mod 10) with (digit c) by (subst u; Z.div_mod_to_equations; lia).
  replace (u mod 10) with (digit d) by (subst u; Z.div_mod_to_equations; lia).
  now rewrite Ea, Eb, Ec, Ed.
Qed.

Lemma skip_dash v rest : skip "-" v = Some rest -> v = String "-" rest.
Proof.
  destruct v as [|a v]; cbn; [discriminate|].
  destruct (Ascii.eqb_spec a "-"); [subst; intro E; now inversion E | discriminate].
Qed.

(** Formatting a date that [Parse] accepted gives the text back. *)
Lemma Format_Parse value t : Parse value = Some t -> Format t = value.
Proof.
  unfold Parse.
  destruct value as [|a [|b [|c [|d v1]]]]; cbn [longYear]; try discriminate.
  destruct (isDigit a) eqn:Ha; cbn [andb]; [|discriminate].
  destruct (isDigit b) eqn:Hb; cbn [andb]; [|discriminate].
  destruct (isDigit c) eqn:Hc; cbn [andb]; [|discriminate].
  destruct (isDigit d) eqn:Hd; cbn [andb]; [|discriminate].
  destruct (skip "-" v1) as [v2|] eqn:S1; [|discriminate].
  apply skip_dash in S1; subst v1.
  destruct v2 as [|m1 [|m2 v3]]; cbn [getnum]; try discriminate.
  destruct (isDigit m1) eqn:Hm1; cbn [andb]; [|discriminate].
  destruct (isDigit m2) eqn:Hm2; cbn [andb]; [|discriminate].
  destruct ((_ <=? 0) || _); [discriminate|].
  destruct (skip "-" v3) as [v4|] eqn:S2; [|discriminate].
  apply skip_dash in S2; subst v3.
  destruct v4 as [|d1 [|d2 v5]]; cbn [getnum]; try discriminate.
  destruct (isDigit d1) eqn:Hd1; cbn [andb]; [|discriminate].
  destruct (isDigit d2) eqn:Hd2; cbn [andb]; [|discriminate].
  destruct v5; [|discriminate].
  destruct ((_ <? 1) || _); [discriminate|].
  intro E; inversion E; subst t; clear E.
  unfold Format; cbn [Year Month Day].
  rewrite appendInt_4, !appendInt_2 by assumption.
  reflexivity.
Qed.

End time_facts.

(** ** The store calls *)

Section StoreCalls.

Variable driver : Driver.

Lemma storeError_healthy w :
  healthy w -> exists w', storeError w = (false, w') /\ db w' = db w /\ healthy w'.
Proof.
  unfold healthy, storeError.
  destruct w as [t [|e es]]; cbn.
  - intros _. now eexists.
  - intro Hh. apply andb_prop in Hh as [He Hes].
    destruct e; [discriminate|]. now eexists.
Qed.

Lemma storeError_fails w :
  nextCallFails w -> exists w', storeError w = (true, w') /\ db w' = db w.
Proof.
  unfold nextCallFails, storeError.
  destruct w as [t [|e es]]; cbn; [discriminate|].
  intros ->. now eexists.
Qed.

Lemma storeError_db w : db (snd (storeError w)) = db w.
Proof. unfold storeError. now destruct (errs w). Qed.

Lemma storeError_cases w :
  exists e w', storeError w = (e, w') /\ db w' = db w.
Proof.
  exists (fst (storeError w)), (snd (storeError w)).
  split; [now destruct (storeError w) | apply storeError_db].
Qed.

Lemma QueryRowScan_healthy taskID w :
  healthy w ->
  exists w', QueryRowScan driver taskID w
             = (option_map (Scan driver) (sqlite.SELECT_WHERE_id taskID (db w)), w')
             /\ db w' = db w /\ healthy w'.
Proof.
  intro Hh. destruct (storeError_healthy w Hh) as (w' & E & Hdb & Hh').
  exists w'. unfold QueryRowScan, bind. rewrite E.
  unfold getTable, ret. now rewrite Hdb.
Qed.

Lemma QueryRowScan_no_row taskID w :
  sqlite.SELECT_WHERE_id taskID (db w) = None ->
  QueryRowScan driver taskID w = (None, snd (storeError w)).
Proof.
  intro Hnone. destruct (storeError_cases w) as (e & w' & E & Hdb).
  unfold QueryRowScan, bind. rewrite E.
  destruct e; unfold getTable, ret; [easy|].
  now rewrite Hdb, Hnone.
Qed.

Lemma QueryRowScan_db taskID w : db (snd (QueryRowScan driver taskID w)) = db w.
Proof.
  destruct (storeError_cases w) as (e & w' & E & Hdb).
  unfold QueryRowScan, bind. rewrite E. now destruct e.
Qed.


Lemma QueryScanAll_db w : db (snd (QueryScanAll driver w)) = db w.
Proof.
  destruct (storeError_cases w) as (e & w' & E & Hdb).
  unfold QueryScanAll, bind. rewrite E. now destruct e.
Qed.

End StoreCalls.

Lemma ExecInsert_healthy title description due_date status w :
  healthy w -> sqlite.seq (db w) < sqlite.maxRowid ->
  exists w',
    ExecInsert title description due_date status w = (Some (sqlite.seq (db w) + 1), w')
    /\ db w' = {| sqlite.rows := sqlite.rows (db w)
                    ++ [ {| sqlite.id := sqlite.seq (db w) + 1; sqlite.title := title;
                            sqlite.description := description; sqlite.due_date := due_date;
                            sqlite.status := status |} ];
                  sqlite.seq := sqlite.seq (db w) + 1 |}
    /\ healthy w'.
Proof.
  intros Hh Hroom. destruct (storeError_healthy w Hh) as (w' & E & Hdb & Hh').
  unfold ExecInsert, bind. rewrite E. unfold getTable, sqlite.INSERT.
  rewrite Hdb. apply Z.ltb_lt in Hroom. rewrite Hroom.
  eexists. split; [reflexivity|]. split; [reflexivity|]. exact Hh'.
Qed.

Lemma ExecUpdate_healthy title description due_date status taskID w :
  healthy w ->
  exists w',
    ExecUpdate title description due_date status taskID w = (true, w')
    /\ db w' = sqlite.UPDATE title description due_date status taskID (db w)
    /\ healthy w'.
Proof.
  intros Hh. destruct (storeError_healthy w Hh) as (w' & E & Hdb & Hh').
  unfold ExecUpdate, bind. rewrite E. unfold getTable, putTable, ret.
  rewrite Hdb. eexists. split; [reflexivity|]. split; [reflexivity|]. exact Hh'.
Qed.

Lemma ExecDelete_healthy taskID w :
  healthy w ->
  exists w',
    ExecDelete taskID w = (Some (fst (sqlite.DELETE taskID (db w))), w')
    /\ db w' = snd (sqlite.DELETE taskID (db w))
    /\ healthy w'.
Proof.
  intros Hh. destruct (storeError_healthy w Hh) as (w' & E & Hdb & Hh').
  unfold ExecDelete, bind. rewrite E. unfold getTable, putTable, ret.
  rewrite Hdb. cbn. eexists. split; [reflexivity|]. split; [reflexivity|]. exact Hh'.
Qed.

Lemma ExecDelete_fails taskID w :
  nextCallFails w -> exists w', ExecDelete taskID w = (None, w') /\ db w' = db w.
Proof.
  intro Hf. destruct (storeError_fails w Hf) as (w' & E & Hdb).
  exists w'. unfold ExecDelete, bind. now rewrite E.
Qed.

(** ** The table *)

Module table_facts.
Import sqlite.

Lemma find_none_filter {A} (f : A -> bool) l :
  find f l = None -> filter f l = [] /\ filter (fun x => negb (f x)) l = l.
Proof.
  induction l as [|x l IH]; cbn; [easy|].
  destruct (f x); [discriminate|]. cbn.
  intro Hn. destruct (IH Hn) as [-> ->]. easy.
Qed.

Lemma find_some_filter {A} (f : A -> bool) l x :
  find f l = Some x -> filter f l <> [].
Proof.
  induction l as [|y l IH]; cbn; [discriminate|].
  destruct (f y); [discriminate | exact IH].
Qed.

Lemma find_filter_negb {A} (f : A -> bool) l :
  find f (filter (fun x => negb (f x)) l) = None.
Proof.
  induction l as [|x l IH]; cbn; [reflexivity|].
  destruct (f x) eqn:E; cbn; [exact IH | now rewrite E].
Qed.

Lemma find_map_if {A} (f : A -> bool) (g : A -> A) l :
  (forall x, f (g x) = f x) ->
  find f (map (fun x => if f x then g x else x) l) = option_map g (find f l).
Proof.
  intro Hg. induction l as [|x l IH]; cbn; [reflexivity|].
  destruct (f x) eqn:E; [now rewrite Hg, E | now rewrite E].
Qed.

Lemma DELETE_no_row param t :
  SELECT_WHERE_id param t = None -> DELETE param t = (0, t).
Proof.
  unfold SELECT_WHERE_id, DELETE. intro Hn.
  destruct (find_none_filter _ _ Hn) as [-> ->]. now destruct t.
Qed.

Lemma DELETE_row param t r :
  SELECT_WHERE_id param t = Some r -> (fst (DELETE param t) =? 0) = false.
Proof.
  unfold SELECT_WHERE_id, DELETE. intro Hs. apply find_some_filter in Hs.
  cbn. destruct (filter _ _); [easy|]. apply Z.eqb_neq. cbn [List.length]. lia.
Qed.

Lemma SELECT_after_DELETE param t :
  SELECT_WHERE_id param (snd (DELETE param t)) = None.
Proof. apply find_filter_negb. Qed.

Lemma SELECT_after_UPDATE title description due_date status param t r :
  SELECT_WHERE_id param t = Some r ->
  SELECT_WHERE_id param (UPDATE title description due_date status param t)
  = Some {| id := id r; title := title; description := description;
            due_date := due_date; status := status |}.
Proof.
  unfold SELECT_WHERE_id, UPDATE. cbn. intro Hs.
  rewrite find_map_if with (g := fun r => {| id := id r; title := title;
    description := description; due_date := due_date; status := status |}) by reflexivity.
  now rewrite Hs.
Qed.

Lemma whereId_no_key param r : rowidOfText param = None -> whereId param r = false.
Proof. unfold whereId. now intros ->. Qed.

Lemma SELECT_no_key param t : rowidOfText param = None -> SELECT_WHERE_id param t = None.
Proof.
  intro Hk. unfold SELECT_WHERE_id.
  induction (rows t) as [|r l IH]; cbn; [reflexivity|].
  now rewrite (whereId_no_key _ _ Hk).
Qed.

Lemma SELECT_id param t r :
  SELECT_WHERE_id param t = Some r -> In r (rows t) /\ rowidOfText param = Some (id r).
Proof.
  unfold SELECT_WHERE_id. intro Hs. apply find_some in Hs as [Hin Hw].
  split; [exact Hin|]. unfold whereId in Hw.
  destruct (rowidOfText param); [|discriminate].
  apply Z.eqb_eq in Hw. now subst.
Qed.

(** *** The invariant *)

Lemma ascending_bounds lo ids hi :
  ascending lo ids hi = true -> lo <= hi /\ forall i, In i ids -> lo < i <= hi.
Proof.
  revert lo. induction ids as [|j ids IH]; cbn; intros lo Ha.
  - apply Z.leb_le in Ha. easy.
  - apply andb_prop in Ha as [Hlt Hrest]. apply Z.ltb_lt in Hlt.
    destruct (IH _ Hrest) as [Hle Hall]. split; [lia|].
    intros i [<-|Hin]; [lia|]. specialize (Hall i Hin). lia.
Qed.

Lemma ascending_weaken lo lo' ids hi :
  lo' <= lo -> ascending lo ids hi = true -> ascending lo' ids hi = true.
Proof.
  destruct ids as [|j ids]; cbn; intros Hle Ha.
  - apply Z.leb_le in Ha. apply Z.leb_le. lia.
  - apply andb_prop in Ha as [Hlt Hrest]. apply Z.ltb_lt in Hlt.
    rewrite Hrest, andb_true_r. apply Z.ltb_lt. lia.
Qed.

Lemma ascending_snoc lo ids hi :
  ascending lo ids hi = true -> ascending lo (ids ++ [hi + 1]) (hi + 1) = true.
Proof.
  revert lo. induction ids as [|j ids IH]; cbn; intros lo Ha.
  - apply Z.leb_le in Ha. rewrite andb_true_iff, Z.ltb_lt, Z.leb_le. lia.
  - apply andb_prop in Ha as [Hlt Hrest]. now rewrite Hlt, IH.
Qed.

Lemma ascending_filter (f : Row -> bool) lo l hi :
  ascending lo (map id l) hi = true -> ascending lo (map id (filter f l)) hi = true.
Proof.
  revert lo. induction l as [|r l IH]; cbn; intros lo Ha; [exact Ha|].
  apply andb_prop in Ha as [Hlt Hrest].
  destruct (f r); cbn.
  - now rewrite Hlt, IH.
  - apply Z.ltb_lt in Hlt. apply (ascending_weaken (id r)); [lia|]. now apply IH.
Qed.

Lemma wf_empty : wf empty.
Proof. reflexivity. Qed.

Lemma wf_bounds t r : wf t -> In r (rows t) -> 0 < id r <= seq t.
Proof.
  intros Hwf Hin. apply ascending_bounds in Hwf as [_ Hall].
  apply Hall. now apply in_map.
Qed.

Lemma wf_NoDup t : wf t -> NoDup (map id (rows t)).
Proof.
  unfold wf. generalize 0 as lo. induction (map id (rows t)) as [|i ids IH]; intros lo Ha.
  - constructor.
  - cbn in Ha. apply andb_prop in Ha as [_ Hrest]. constructor; [|now apply (IH i)].
    intro Hin. apply ascending_bounds in Hrest as [_ Hall]. specialize (Hall i Hin). lia.
Qed.

Lemma wf_seq t : wf t -> 0 <= seq t.
Proof. intro Hwf. now apply ascending_bounds in Hwf as [Hle _]. Qed.

Lemma wf_INSERT title description due_date status t rowid t' :
  wf t -> INSERT title description due_date status t = Some (rowid, t') -> wf t'.
Proof.
  unfold wf, INSERT. intros Hwf. destruct (seq t <? maxRowid); [|discriminate].
  intro E; inversion E; subst; clear E. cbn.
  rewrite map_app. cbn. now apply ascending_snoc.
Qed.

Lemma wf_UPDATE title description due_date status param t :
  wf t -> wf (UPDATE title description due_date status param t).
Proof.
  unfold wf, UPDATE. cbn [rows seq]. rewrite map_map.
  intro Hwf. rewrite <- Hwf. f_equal.
  apply map_ext. intro r. now destruct (whereId param r).
Qed.

Lemma wf_DELETE param t : wf t -> wf (snd (DELETE param t)).
Proof. unfold wf, DELETE. cbn. apply ascending_filter. Qed.

End table_facts.

(** ** The handlers *)

Section HandlerFacts.

Variable driver : Driver.

Lemma retrieveTask_healthy taskID w :
  healthy w ->
  exists w',
    retrieveTask driver taskID w
    = (match sqlite.SELECT_WHERE_id taskID (db w) with
       | Some r => {| code := http.StatusOK; body := OneTask (Scan driver r) |}
       | None => {| code := http.StatusNotFound; body := H "error" "Task not found" |}
       end, w')
    /\ db w' = db w /\ healthy w'.
Proof.
  intro Hh. destruct (QueryRowScan_healthy driver taskID w Hh) as (w' & E & Hdb & Hh').
  exists w'. unfold retrieveTask, bind. rewrite E.
  now destruct (sqlite.SELECT_WHERE_id taskID (db w)).
Qed.

Lemma retrieveTask_no_row taskID w :
  sqlite.SELECT_WHERE_id taskID (db w) = None ->
  fst (retrieveTask driver taskID w)
  = {| code := http.StatusNotFound; body := H "error" "Task not found" |}.
Proof.
  intro Hn. unfold retrieveTask, bind.
  now rewrite (QueryRowScan_no_row driver taskID w Hn).
Qed.

Lemma retrieveTask_db taskID w : db (snd (retrieveTask driver taskID w)) = db w.
Proof.
  unfold retrieveTask, bind.
  pose proof (QueryRowScan_db driver taskID w) as Hdb.
  destruct (QueryRowScan driver taskID w) as [[task|] w']; exact Hdb.
Qed.

Lemma listAllTasks_db w : db (snd (listAllTasks driver w)) = db w.
Proof.
  unfold listAllTasks, bind.
  pose proof (QueryScanAll_db driver w) as Hdb.
  destruct (QueryScanAll driver w) as [[tasks|] w']; [|exact Hdb].
  now destruct (0 <? _).
Qed.


Lemma deleteTask_healthy taskID w :
  healthy w ->
  exists w',
    deleteTask taskID w
    = (if fst (sqlite.DELETE taskID (db w)) =? 0
       then {| code := http.StatusNotFound; body := H "error" "Task not found" |}
       else {| code := http.StatusOK; body := H "message" "Task deleted successfully" |}, w')
    /\ db w' = snd (sqlite.DELETE taskID (db w)) /\ healthy w'.
Proof.
  intro Hh. destruct (ExecDelete_healthy taskID w Hh) as (w' & E & Hdb & Hh').
  exists w'. unfold deleteTask, bind. rewrite E.
  now destruct (_ =? 0).
Qed.

Lemma deleteTask_fails taskID w :
  nextCallFails w ->
  fst (deleteTask taskID w)
  = {| code := http.StatusInternalServerError; body := H "error" "Failed to delete task" |}
  /\ db (snd (deleteTask taskID w)) = db w.
Proof.
  intro Hf. destruct (ExecDelete_fails taskID w Hf) as (w' & E & Hdb).
  unfold deleteTask, bind. now rewrite E.
Qed.


Lemma createTask_healthy t d w :
  healthy w -> sqlite.seq (db w) < sqlite.maxRowid ->
  time.Parse (DueDate t) = Some d ->
  exists w',
    createTask (Some t) w
    = ({| code := http.StatusCreated;
          body := OneTask {| ID := sqlite.seq (db w) + 1; Title := Title t;
                             Description := Description t; DueDate := DueDate t;
                             Status := Status t |} |}, w')
    /\ db w' = {| sqlite.rows := sqlite.rows (db w) ++ [rowOf (sqlite.seq (db w) + 1) t];
                  sqlite.seq := sqlite.seq (db w) + 1 |}
    /\ healthy w'.
Proof.
  intros Hh Hroom Hp.
  unfold createTask. rewrite Hp. cbn [Title Description DueDate Status ID].
  rewrite (time_facts.Format_Parse _ _ Hp).
  destruct (ExecInsert_healthy (Title t) (Description t) (DueDate t) (Status t) w Hh Hroom)
    as (w' & E & Hdb & Hh').
  exists w'. unfold bind. rewrite E. now rewrite Hdb.
Qed.

Lemma updateTask_healthy taskID t r w :
  healthy w -> sqlite.SELECT_WHERE_id taskID (db w) = Some r ->
  exists w',
    updateTask driver taskID (Some t) w
    = ({| code := http.StatusOK; body := OneTask (Scan driver (rowOf (sqlite.id r) t)) |}, w')
    /\ db w' = sqlite.UPDATE (Title t) (Description t) (DueDate t) (Status t) taskID (db w)
    /\ healthy w'.
Proof.
  intros Hh Hs.
  destruct (QueryRowScan_healthy driver taskID w Hh) as (w1 & E1 & Hdb1 & Hh1).
  destruct (ExecUpdate_healthy (Title t) (Description t) (DueDate t) (Status t) taskID w1 Hh1)
    as (w2 & E2 & Hdb2 & Hh2).
  destruct (QueryRowScan_healthy driver taskID w2 Hh2) as (w3 & E3 & Hdb3 & Hh3).
  exists w3. unfold updateTask, bind. rewrite E1, Hs. cbn [option_map].
  rewrite E2, E3, Hdb2, Hdb1.
  rewrite (table_facts.SELECT_after_UPDATE _ _ _ _ _ _ _ Hs). cbn [option_map].
  split; [reflexivity|]. split; [congruence | exact Hh3].
Qed.

Lemma updateTask_db_no_row taskID payload w :
  sqlite.SELECT_WHERE_id taskID (db w) = None ->
  db (snd (updateTask driver taskID payload w)) = db w.
Proof.
  intro Hn. destruct payload as [t|]; [|reflexivity].
  unfold updateTask, bind.
  rewrite (QueryRowScan_no_row driver taskID w Hn). apply storeError_db.
Qed.

End HandlerFacts.


(** ** What the handlers keep *)

Section Invariants.

Variable driver : Driver.

Lemma canonicalDate_Format value t :
  time.Parse value = Some t -> canonicalDate (time.Format t) = true.
Proof.
  intro Hp. rewrite (time_facts.Format_Parse _ _ Hp).
  unfold canonicalDate. rewrite Hp, (time_facts.Format_Parse _ _ Hp).
  apply String.eqb_refl.
Qed.

(** Create writes only due_dates in the form YYYY-MM-DD, whatever the
    payload and the state of the store. *)
Lemma createTask_keeps_dates_canonical payload w :
  datesCanonical (db w) = true ->
  datesCanonical (db (snd (createTask payload w))) = true.
Proof.
  intro Hc. destruct payload as [t|]; [|exact Hc].
  unfold createTask. destruct (time.Parse (DueDate t)) as [d|] eqn:Hp; [|exact Hc].
  cbn [Title Description DueDate Status].
  unfold bind, ExecInsert, bind.
  destruct (storeError_cases w) as (e & w' & E & Hdb). rewrite E.
  destruct e; [cbn; now rewrite Hdb|].
  unfold getTable, sqlite.INSERT. rewrite Hdb.
  destruct (sqlite.seq (db w) <? sqlite.maxRowid); [|cbn; now rewrite Hdb].
  cbn. unfold datesCanonical in *. cbn. rewrite forallb_app, Hc. cbn.
  now rewrite (canonicalDate_Format _ _ Hp).
Qed.

Lemma createTask_keeps_wf payload w :
  wf (db w) -> wf (db (snd (createTask payload w))).
Proof.
  intro Hwf. destruct payload as [t|]; [|exact Hwf].
  unfold createTask. destruct (time.Parse (DueDate t)) as [d|]; [|exact Hwf].
  unfold bind, ExecInsert, bind.
  destruct (storeError_cases w) as (e & w' & E & Hdb). rewrite E.
  destruct e; [cbn; now rewrite Hdb|].
  unfold getTable.
  destruct (sqlite.INSERT _ _ _ _ (db w')) as [[rowid t']|] eqn:Ei;
    [|cbn; now rewrite Hdb].
  cbn. rewrite Hdb in Ei. exact (table_facts.wf_INSERT _ _ _ _ _ _ _ Hwf Ei).
Qed.

Lemma updateTask_keeps_wf taskID payload w :
  wf (db w) -> wf (db (snd (updateTask driver taskID payload w))).
Proof.
  intro Hwf. destruct payload as [t|]; [|exact Hwf].
  unfold updateTask, bind.
  pose proof (QueryRowScan_db driver taskID w) as Hdb1.
  destruct (QueryRowScan driver taskID w) as [[existing|] w1]; cbn [snd] in Hdb1;
    [|cbn; now rewrite Hdb1].
  unfold ExecUpdate, bind.
  destruct (storeError_cases w1) as (e & w2 & E & Hdb2). rewrite E.
  destruct e; [cbn; now rewrite Hdb2, Hdb1|].
  unfold getTable, putTable, ret.
  match goal with |- context [QueryRowScan driver taskID ?w3] =>
    pose proof (QueryRowScan_db driver taskID w3) as Hdb3;
    destruct (QueryRowScan driver taskID w3) as [[details|] w4] end;
    unfold JSONreply, ret; cbn [snd db] in *; rewrite Hdb3, Hdb2, Hdb1;
    now apply table_facts.wf_UPDATE.
Qed.

Lemma deleteTask_keeps_wf taskID w :
  wf (db w) -> wf (db (snd (deleteTask taskID w))).
Proof.
  intro Hwf. unfold deleteTask, ExecDelete, bind.
  destruct (storeError_cases w) as (e & w' & E & Hdb). rewrite E.
  destruct e; [cbn; now rewrite Hdb|].
  unfold getTable, putTable, ret. rewrite Hdb.
  destruct (sqlite.DELETE taskID (db w)) as [n t'] eqn:Ed.
  assert (Ht : t' = snd (sqlite.DELETE taskID (db w))) by now rewrite Ed.
  destruct (n =? 0); cbn; subst t'; now apply table_facts.wf_DELETE.
Qed.

(** Whatever requests a process has served since the table was created,
    and whichever of its store calls failed, the table is well formed. *)
Lemma run_keeps_wf reqs : forall w, wf (db w) -> wf (db (run driver reqs w)).
Proof.
  induction reqs as [|req reqs IH]; intros w Hwf; [exact Hwf|].
  cbn [run]. apply IH. destruct req; cbn [serve].
  - now apply createTask_keeps_wf.
  - now rewrite retrieveTask_db.
  - now apply updateTask_keeps_wf.
  - now apply deleteTask_keeps_wf.
  - now rewrite listAllTasks_db.
Qed.

Lemma reachable_wf reqs es :
  wf (db (run driver reqs {| db := sqlite.empty; errs := es |})).
Proof. apply run_keeps_wf. reflexivity. Qed.

(** With a driver that hands the stored text back, Retrieve returns the row
    as it was written. *)
Lemma retrieveTask_verbatim taskID rowid t w :
  healthy w -> sqlite.SELECT_WHERE_id taskID (db w) = Some (rowOf rowid t) ->
  fst (retrieveTask verbatim taskID w)
  = {| code := http.StatusOK;
       body := OneTask {| ID := rowid; Title := Title t; Description := Description t;
                          DueDate := DueDate t; Status := Status t |} |}.
Proof.
  intros Hh Hs. destruct (retrieveTask_healthy verbatim taskID w Hh) as (w' & E & _).
  now rewrite E, Hs.
Qed.

End Invariants.

(** ** Checks on sample texts *)

Example Parse_samples :
  time.Parse "2025-03-10" = Some (time.Date 2025 3 10)
  /\ time.Parse "2024-02-29" = Some (time.Date 2024 2 29)
  /\ time.Parse "2023-02-29" = None
  /\ time.Parse "2024-13-40" = None
  /\ time.Parse "2025-3-10" = None
  /\ time.Parse "2025-03-10 " = None
  /\ time.Parse "" = None.
Proof. repeat split. Qed.

Example Format_samples :
  time.Format (time.Date 2025 3 10) = "2025-03-10"
  /\ time.Format (time.Date 7 12 1) = "0007-12-01"
  /\ time.Format (time.Date 12345 3 10) = "12345-03-10".
Proof. repeat split. Qed.

Example rowidOfText_samples :
  map sqlite.rowidOfText ["1"; "+1"; " 1 "; "01"; "1.0"; "10e-1"; "-3"; "7.0"]
  = [Some 1; Some 1; Some 1; Some 1; Some 1; Some 1; Some (-3); Some 7]
  /\ map sqlite.rowidOfText
       [""; "abc"; "1a"; "0x1"; "1.5"; "."; "1e"; "1 2"; "9223372036854775808"]
     = [None; None; None; None; None; None; None; None; None]
  /\ map sqlite.rowidOfText
       ["0.99999999999999999999"; "1.00000000000000000001"; "0.9999999999999999";
        "9007199254740993"; "9007199254740993.0"; "9223372036854775807";
        "9223372036854775807.0"]
     = [Some 1; Some 1; None;
        Some 9007199254740993; Some 9007199254740992; Some 9223372036854775807;
        None].
Proof. repeat split. Qed.

(** ** The properties of the specification *)


Section Properties.

Variable driver : Driver.

(** C2.  A Create request whose due_date does not parse with the layout
    YYYY-MM-DD is answered with status 400, that is InvalidInput, and the
    message "Invalid due_date format" (the specification writes it in lower
    case); the handler returns before any store call, so the state,
    and with it every persisted row, is what it was. *)
Theorem create_invalid_due_date (t : Task) (w : World) :
  time.Parse (DueDate t) = None ->
  createTask (Some t) w
  = ({| code := http.StatusBadRequest; body := H "error" "Invalid due_date format" |}, w)
  /\ errorKind (fst (createTask (Some t) w)) = Some InvalidInput
  /\ message (fst (createTask (Some t) w)) = Some "invalid due_date format".
Proof.
  intro Hp. unfold createTask. rewrite Hp. repeat split.
Qed.

(** C3.  An Update request whose id matches no persisted row is answered
    with status 404, that is NotFound.  No write is attempted: the handler
    returns after its first store call, the read that finds no row, so the
    state is the one that single call leaves, and the table is unchanged.
    The table is unchanged as well when the payload does not decode. *)
Theorem update_unknown_id (taskID : string) (t : Task) (w : World) :
  sqlite.SELECT_WHERE_id taskID (db w) = None ->
  fst (updateTask driver taskID (Some t) w)
  = {| code := http.StatusNotFound; body := H "error" "Task not found" |}
  /\ errorKind (fst (updateTask driver taskID (Some t) w)) = Some NotFound
  /\ snd (updateTask driver taskID (Some t) w) = snd (storeError w)
  /\ db (snd (updateTask driver taskID (Some t) w)) = db w
  /\ db (snd (updateTask driver taskID None w)) = db w.
Proof.
  intro Hn. unfold updateTask, bind.
  rewrite (QueryRowScan_no_row driver taskID w Hn).
  repeat split. apply storeError_db.
Qed.

(** C4.  A Create request with a valid YYYY-MM-DD due_date, served by a
    working store with room for one more rowid, is answered with status 201
    and a Task whose title, description, due_date and status are those of the
    payload.  Its id is new: positive, larger than every id assigned so far,
    and so the id of no persisted row.  The row with that id is appended to
    the table.  The id of the payload plays no part: changing it changes
    nothing. *)
Theorem create_round_trip (t : Task) (d : time.Time) (w : World) :
  wf (db w) -> healthy w -> sqlite.seq (db w) < sqlite.maxRowid ->
  time.Parse (DueDate t) = Some d ->
  exists newID w',
    createTask (Some t) w
    = ({| code := http.StatusCreated;
          body := OneTask {| ID := newID; Title := Title t; Description := Description t;
                             DueDate := DueDate t; Status := Status t |} |}, w')
    /\ 0 < newID
    /\ sqlite.seq (db w) < newID
    /\ (forall r, In r (sqlite.rows (db w)) -> sqlite.id r <> newID)
    /\ sqlite.rows (db w') = (sqlite.rows (db w) ++ [rowOf newID t])%list
    /\ wf (db w')
    /\ forall i, createTask (Some {| ID := i; Title := Title t; Description := Description t;
                                      DueDate := DueDate t; Status := Status t |}) w
                 = createTask (Some t) w.
Proof.
  intros Hwf Hh Hroom Hp.
  destruct (createTask_healthy t d w Hh Hroom Hp) as (w' & E & Hdb & Hh').
  exists (sqlite.seq (db w) + 1), w'.
  pose proof (table_facts.wf_seq _ Hwf) as Hseq.
  split; [exact E|]. split; [lia|]. split; [lia|]. split.
  { intros r Hin. pose proof (table_facts.wf_bounds _ _ Hwf Hin). lia. }
  split; [now rewrite Hdb|]. split.
  { rewrite Hdb. unfold wf. cbn [sqlite.rows sqlite.seq]. rewrite map_app.
    now apply table_facts.ascending_snoc. }
  reflexivity.
Qed.

(** What an Update of an existing id does under every driver.  Served by a
    working store, it overwrites title, description, due_date and status of the
    row with that id by the payload's values and leaves its id and every
    other row as they were.  The reply has status 200 and carries the row as
    it is read back after the write; a Retrieve of the same id right after
    carries the same Task: the id of the row, the payload's title,
    description and status, and the payload's due_date as the driver hands
    it back. *)
Theorem update_existing (taskID : string) (t : Task) (r : sqlite.Row) (w : World) :
  healthy w -> sqlite.SELECT_WHERE_id taskID (db w) = Some r ->
  exists w',
    updateTask driver taskID (Some t) w
    = ({| code := http.StatusOK;
          body := OneTask {| ID := sqlite.id r; Title := Title t; Description := Description t;
                             DueDate := ScanDate driver (DueDate t); Status := Status t |} |}, w')
    /\ sqlite.SELECT_WHERE_id taskID (db w') = Some (rowOf (sqlite.id r) t)
    /\ sqlite.rows (db w')
       = map (fun x => if sqlite.whereId taskID x then rowOf (sqlite.id x) t else x)
             (sqlite.rows (db w))
    /\ map sqlite.id (sqlite.rows (db w')) = map sqlite.id (sqlite.rows (db w))
    /\ fst (retrieveTask driver taskID w') = fst (updateTask driver taskID (Some t) w).
Proof.
  intros Hh Hs.
  destruct (updateTask_healthy driver taskID t r w Hh Hs) as (w' & E & Hdb & Hh').
  exists w'. split; [exact E|].
  assert (Hs' : sqlite.SELECT_WHERE_id taskID (db w') = Some (rowOf (sqlite.id r) t)).
  { rewrite Hdb. now apply table_facts.SELECT_after_UPDATE. }
  split; [exact Hs'|]. split; [now rewrite Hdb|]. split.
  { rewrite Hdb. cbn [sqlite.UPDATE sqlite.rows]. rewrite map_map. apply map_ext.
    intro x. now destruct (sqlite.whereId taskID x). }
  destruct (retrieveTask_healthy driver taskID w' Hh') as (w'' & E' & _).
  now rewrite E', E, Hs'.
Qed.


(** C7.  Served by a working store, Delete of an id that matches a row
    answers with status 200 and removes the row: a Retrieve of that id right
    after is answered with 404 NotFound, and so is a second Delete.  Delete
    of an id that matches no row affects zero rows, is answered with 404
    NotFound, and leaves the table as it was.  When the store call returns
    an error, Delete is answered with 500 StoreFailure and the table is as it
    was. *)
Theorem delete_task (taskID : string) (w : World) :
  (healthy w -> forall r, sqlite.SELECT_WHERE_id taskID (db w) = Some r ->
     exists w',
       deleteTask taskID w
       = ({| code := http.StatusOK; body := H "message" "Task deleted successfully" |}, w')
       /\ sqlite.rows (db w')
          = filter (fun x => negb (sqlite.whereId taskID x)) (sqlite.rows (db w))
       /\ sqlite.SELECT_WHERE_id taskID (db w') = None
       /\ errorKind (fst (retrieveTask driver taskID w')) = Some NotFound
       /\ errorKind (fst (deleteTask taskID w')) = Some NotFound)
  /\ (healthy w -> sqlite.SELECT_WHERE_id taskID (db w) = None ->
     fst (sqlite.DELETE taskID (db w)) = 0
     /\ fst (deleteTask taskID w)
        = {| code := http.StatusNotFound; body := H "error" "Task not found" |}
     /\ errorKind (fst (deleteTask taskID w)) = Some NotFound
     /\ db (snd (deleteTask taskID w)) = db w)
  /\ (nextCallFails w ->
     fst (deleteTask taskID w)
     = {| code := http.StatusInternalServerError; body := H "error" "Failed to delete task" |}
     /\ errorKind (fst (deleteTask taskID w)) = Some StoreFailure
     /\ db (snd (deleteTask taskID w)) = db w).
Proof.
  split; [|split].
  - intros Hh r Hs.
    destruct (deleteTask_healthy taskID w Hh) as (w' & E & Hdb & Hh').
    rewrite (table_facts.DELETE_row _ _ _ Hs) in E.
    exists w'. split; [exact E|].
    assert (Hn : sqlite.SELECT_WHERE_id taskID (db w') = None).
    { rewrite Hdb. apply table_facts.SELECT_after_DELETE. }
    split; [now rewrite Hdb|]. split; [exact Hn|]. split.
    + now rewrite (retrieveTask_no_row driver taskID w' Hn).
    + destruct (deleteTask_healthy taskID w' Hh') as (w'' & E' & _).
      rewrite E', (table_facts.DELETE_no_row _ _ Hn). reflexivity.
  - intros Hh Hn.
    destruct (deleteTask_healthy taskID w Hh) as (w' & E & Hdb & Hh').
    rewrite (table_facts.DELETE_no_row _ _ Hn) in *. cbn [fst snd] in *.
    rewrite E. repeat split. exact Hdb.
  - intro Hf. destruct (deleteTask_fails taskID w Hf) as [E Hdb].
    rewrite E. repeat split. exact Hdb.
Qed.


(** C10.  Retrieve and ListAll only read: whatever the state and the id,
    the table after the request is the table before it. *)
Theorem reads_leave_table (taskID : string) (w : World) :
  db (snd (retrieveTask driver taskID w)) = db w
  /\ db (snd (listAllTasks driver w)) = db w.
Proof. split; [apply retrieveTask_db | apply listAllTasks_db]. Qed.

End Properties.

(** ** The properties at the sample requests *)

Lemma create_invalid_due_date_witness :
  time.Parse (DueDate badDate) = None
  /\ createTask (Some badDate) shop
     = ({| code := 400; body := H "error" "Invalid due_date format" |}, shop).
Proof.
  split; [reflexivity|].
  exact (proj1 (create_invalid_due_date badDate shop eq_refl)).
Defined.

Lemma update_unknown_id_witness :
  sqlite.SELECT_WHERE_id "7" (db shop) = None
  /\ fst (updateTask go_sqlite3_dates "7" (Some april) shop)
     = {| code := 404; body := H "error" "Task not found" |}
  /\ db (snd (updateTask go_sqlite3_dates "7" (Some april) shop)) = db shop.
Proof.
  split; [reflexivity|].
  pose proof (update_unknown_id go_sqlite3_dates "7" april shop eq_refl) as (E & _ & _ & Hdb & _).
  exact (conj E Hdb).
Defined.

Lemma create_round_trip_witness :
  wf (db fresh) /\ healthy fresh /\ sqlite.seq (db fresh) < sqlite.maxRowid
  /\ time.Parse (DueDate milk) = Some (time.Date 2025 3 10)
  /\ exists newID w',
       createTask (Some milk) fresh
       = ({| code := 201;
             body := OneTask {| ID := newID; Title := "Buy milk"; Description := "2%";
                                DueDate := "2025-03-10"; Status := "open" |} |}, w')
       /\ 0 < newID.
Proof.
  do 4 (split; [reflexivity|]).
  destruct (create_round_trip milk (time.Date 2025 3 10) fresh eq_refl eq_refl eq_refl eq_refl)
    as (newID & w' & E & Hpos & _).
  exists newID, w'. exact (conj E Hpos).
Defined.

Lemma update_existing_witness :
  healthy shop /\ sqlite.SELECT_WHERE_id "1" (db shop) = Some (rowOf 1 milk)
  /\ exists w',
       updateTask go_sqlite3_dates "1" (Some april) shop
       = ({| code := 200;
             body := OneTask {| ID := 1; Title := "Buy oat milk"; Description := "1l";
                                DueDate := "2025-04-01T00:00:00Z"; Status := "done" |} |}, w')
       /\ fst (retrieveTask go_sqlite3_dates "1" w')
          = fst (updateTask go_sqlite3_dates "1" (Some april) shop).
Proof.
  do 2 (split; [reflexivity|]).
  destruct (update_existing go_sqlite3_dates "1" april (rowOf 1 milk) shop eq_refl eq_refl)
    as (w' & E & _ & _ & _ & R).
  exists w'. exact (conj E R).
Defined.


Lemma delete_task_witness :
  healthy shop /\ sqlite.SELECT_WHERE_id "1" (db shop) = Some (rowOf 1 milk)
  /\ sqlite.SELECT_WHERE_id "7" (db shop) = None /\ nextCallFails broken
  /\ (exists w',
        deleteTask "1" shop
        = ({| code := 200; body := H "message" "Task deleted successfully" |}, w')
        /\ errorKind (fst (retrieveTask go_sqlite3_dates "1" w')) = Some NotFound
        /\ errorKind (fst (deleteTask "1" w')) = Some NotFound)
  /\ errorKind (fst (deleteTask "7" shop)) = Some NotFound
  /\ errorKind (fst (deleteTask "1" broken)) = Some StoreFailure.
Proof.
  do 4 (split; [reflexivity|]).
  split; [|split].
  - destruct (proj1 (delete_task go_sqlite3_dates "1" shop) eq_refl _ eq_refl)
      as (w' & E & _ & _ & R & D).
    exists w'. exact (conj E (conj R D)).
  - exact (proj1 (proj2 (proj2 (proj1 (proj2 (delete_task go_sqlite3_dates "7" shop))
                                        eq_refl eq_refl)))).
  - exact (proj1 (proj2 (proj2 (proj2 (delete_task go_sqlite3_dates "1" broken)) eq_refl))).
Defined.



(** C5 fails for the due_date under the driver main.go imports, by the
    defect of C8.  The Update of row 1 with the due_date "2025-04-01" writes
    that text into the row, but the reply, which is the row read back, and
    the Retrieve that follows carry the due_date "2025-04-01T00:00:00Z": they
    do not show the new value as it was sent.  Id, title, description and
    status are as the claim says. *)
Theorem update_reply_renders_due_date (other : string -> string) :
  sqlite.rows (db (snd (updateTask (go_sqlite3 other) "1" (Some april) shop)))
  = [ {| sqlite.id := 1; sqlite.title := "Buy oat milk"; sqlite.description := "1l";
         sqlite.due_date := "2025-04-01"; sqlite.status := "done" |} ]
  /\ fst (updateTask (go_sqlite3 other) "1" (Some april) shop)
     = {| code := 200;
          body := OneTask {| ID := 1; Title := "Buy oat milk"; Description := "1l";
                             DueDate := "2025-04-01T00:00:00Z"; Status := "done" |} |}
  /\ fst (retrieveTask (go_sqlite3 other) "1"
            (snd (updateTask (go_sqlite3 other) "1" (Some april) shop)))
     = {| code := 200;
          body := OneTask {| ID := 1; Title := "Buy oat milk"; Description := "1l";
                             DueDate := "2025-04-01T00:00:00Z"; Status := "done" |} |}.
Proof. repeat split. Qed.

(** C1 fails for Update.  [updateTask] writes the payload's due_date without
    parsing it, where [createTask] parses and reformats it: after an Update
    of row 1 with the due_date "next week", answered with status 200, the
    row holds a due_date that does not parse as YYYY-MM-DD. *)
Theorem update_stores_unparsed_due_date (driver : Driver) :
  datesCanonical (db shop) = true
  /\ time.Parse (DueDate someday) = None
  /\ code (fst (updateTask driver "1" (Some someday) shop)) = 200
  /\ sqlite.rows (db (snd (updateTask driver "1" (Some someday) shop))) = [rowOf 1 someday]
  /\ datesCanonical (db (snd (updateTask driver "1" (Some someday) shop))) = false.
Proof. repeat split. Qed.

(** C8 fails for the due_date under the driver main.go imports.  The
    column is declared DATE, and go-sqlite3 hands a text found in such a
    column to [Scan] as a time, which [Scan] writes into the string field in
    RFC 3339 form: the Task created with the due_date "2025-03-10" (and
    returned so by Create) is retrieved with the due_date
    "2025-03-10T00:00:00Z". *)
Theorem retrieve_renders_due_date (other : string -> string) :
  fst (createTask (Some milk) fresh)
  = {| code := 201;
       body := OneTask {| ID := 1; Title := "Buy milk"; Description := "2%";
                          DueDate := "2025-03-10"; Status := "open" |} |}
  /\ fst (retrieveTask (go_sqlite3 other) "1" (snd (createTask (Some milk) fresh)))
     = {| code := 200;
          body := OneTask {| ID := 1; Title := "Buy milk"; Description := "2%";
                             DueDate := "2025-03-10T00:00:00Z"; Status := "open" |} |}.
Proof. split; reflexivity. Qed.

(** * Further properties of the handlers and of [main] *)

(** ** Replies *)

Ltac handler_cases :=
  unfold serve, createTask, retrieveTask, updateTask, deleteTask, listAllTasks,
    ExecInsert, QueryRowScan, ExecUpdate, ExecDelete, QueryScanAll,
    JSONreply, bind, ret, storeError, getTable, putTable, sqlite.INSERT, sqlite.DELETE;
  repeat (cbn [fst snd db errs option_map];
          match goal with
          | |- context [match ?x with _ => _ end] => destruct x eqn:?
          end).

Section Replies.

Variable driver : Driver.

(** X1.  A reply 400 InvalidInput means that nothing happened: whatever the
    route and the state, the handler that answers 400 made no store call,
    so the state after it, table and pending store outcomes alike, is the
    state before it. *)
Theorem invalid_input_touches_nothing (req : Request) (w : World) :
  errorKind (fst (serve driver req w)) = Some InvalidInput ->
  snd (serve driver req w) = w.
Proof.
  destruct req; handler_cases; cbn; intro E; try discriminate E; reflexivity.
Qed.

(** X2.  The status codes each handler can answer with: Create 201, 400 or
    500; Retrieve 200 or 404, never 500; Update 200, 400, 404 or 500; Delete
    200, 404 or 500, never 400; ListAll 200 or 500. *)
Theorem reply_codes (taskID : string) (payload : option Task) (w : World) :
  In (code (fst (createTask payload w))) [201; 400; 500]
  /\ In (code (fst (retrieveTask driver taskID w))) [200; 404]
  /\ In (code (fst (updateTask driver taskID payload w))) [200; 400; 404; 500]
  /\ In (code (fst (deleteTask taskID w))) [200; 404; 500]
  /\ In (code (fst (listAllTasks driver w))) [200; 500].
Proof.
  repeat split; handler_cases; cbn; auto 6.
Qed.

End Replies.

(** ** Store failures *)

Section Failures.

Variable driver : Driver.

(** X3.  When the INSERT of a Create with a valid due_date fails, because
    the store call returns an error or because the AUTOINCREMENT counter has
    reached the largest rowid, the reply is 500 "Failed to create task", no
    row is added and no id is used up. *)
Theorem create_store_failure (t : Task) (d : time.Time) (w : World) :
  time.Parse (DueDate t) = Some d ->
  nextCallFails w \/ sqlite.maxRowid <= sqlite.seq (db w) ->
  fst (createTask (Some t) w)
  = {| code := http.StatusInternalServerError; body := H "error" "Failed to create task" |}
  /\ errorKind (fst (createTask (Some t) w)) = Some StoreFailure
  /\ db (snd (createTask (Some t) w)) = db w.
Proof.
  intros Hp Hfail. unfold createTask. rewrite Hp.
  cbn [Title Description DueDate Status]. unfold bind, ExecInsert, bind.
  destruct (storeError_cases w) as (e & w' & E & Hdb). rewrite E.
  destruct e; [cbn; now rewrite Hdb|].
  destruct Hfail as [Hf|Hfull].
  - destruct (storeError_fails w Hf) as (w'' & E' & _). congruence.
  - unfold getTable, sqlite.INSERT. rewrite Hdb.
    replace (sqlite.seq (db w) <? sqlite.maxRowid) with false
      by (symmetry; apply Z.ltb_ge; exact Hfull).
    cbn. now rewrite Hdb.
Qed.

(** X4.  When the read of an Update finds the row and the UPDATE statement
    then returns an error, the reply is 500 "Failed to update task" and the
    table is unchanged. *)
Theorem update_write_failure (taskID : string) (t : Task) (r : sqlite.Row)
    (es : list bool) (w : World) :
  errs w = false :: true :: es ->
  sqlite.SELECT_WHERE_id taskID (db w) = Some r ->
  fst (updateTask driver taskID (Some t) w)
  = {| code := http.StatusInternalServerError; body := H "error" "Failed to update task" |}
  /\ db (snd (updateTask driver taskID (Some t) w)) = db w.
Proof.
  intros He Hs. destruct w as [tbl errs0]. cbn [errs db] in *. subst errs0.
  unfold updateTask, bind, QueryRowScan, ExecUpdate, bind, storeError, getTable, ret.
  cbn [errs db]. rewrite Hs. now cbn.
Qed.

(** X5.  When the read and the UPDATE statement of an Update succeed and the
    read after the write returns an error, the reply is 500 "Failed to
    retrieve updated task details", yet the write stands: the row holds the
    payload's values.  A reply 500 from Update does not say that the table
    is unchanged. *)
Theorem update_reread_failure (taskID : string) (t : Task) (r : sqlite.Row)
    (es : list bool) (w : World) :
  errs w = false :: false :: true :: es ->
  sqlite.SELECT_WHERE_id taskID (db w) = Some r ->
  fst (updateTask driver taskID (Some t) w)
  = {| code := http.StatusInternalServerError;
       body := H "error" "Failed to retrieve updated task details" |}
  /\ db (snd (updateTask driver taskID (Some t) w))
     = sqlite.UPDATE (Title t) (Description t) (DueDate t) (Status t) taskID (db w)
  /\ sqlite.SELECT_WHERE_id taskID (db (snd (updateTask driver taskID (Some t) w)))
     = Some (rowOf (sqlite.id r) t).
Proof.
  intros He Hs. destruct w as [tbl errs0]. cbn [errs db] in *. subst errs0.
  unfold updateTask, bind, QueryRowScan, ExecUpdate, bind, storeError, getTable, putTable, ret.
  cbn [errs db]. rewrite Hs. cbn.
  repeat split. now apply table_facts.SELECT_after_UPDATE.
Qed.

(** X6.  When the store call of a read returns an error, Retrieve answers
    404 "Task not found", also for an id whose row exists, and ListAll
    answers 500 "Failed to retrieve tasks", also for an empty table; the
    table is unchanged. *)
Theorem read_store_failure (taskID : string) (w : World) :
  nextCallFails w ->
  fst (retrieveTask driver taskID w)
  = {| code := http.StatusNotFound; body := H "error" "Task not found" |}
  /\ fst (listAllTasks driver w)
     = {| code := http.StatusInternalServerError; body := H "error" "Failed to retrieve tasks" |}
  /\ db (snd (retrieveTask driver taskID w)) = db w
  /\ db (snd (listAllTasks driver w)) = db w.
Proof.
  intro Hf. destruct (storeError_fails w Hf) as (w' & E & Hdb).
  unfold retrieveTask, listAllTasks, QueryRowScan, QueryScanAll, bind.
  rewrite E. cbn. now rewrite Hdb.
Qed.

End Failures.

Lemma create_store_failure_witness :
  time.Parse (DueDate milk) = Some (time.Date 2025 3 10)
  /\ nextCallFails broken /\ sqlite.maxRowid <= sqlite.seq (db full)
  /\ errorKind (fst (createTask (Some milk) broken)) = Some StoreFailure
  /\ fst (createTask (Some milk) full)
     = {| code := 500; body := H "error" "Failed to create task" |}
  /\ db (snd (createTask (Some milk) full)) = db full.
Proof.
  do 3 (split; [reflexivity || discriminate|]).
  split.
  - exact (proj1 (proj2 (create_store_failure milk _ broken eq_refl (or_introl eq_refl)))).
  - pose proof (create_store_failure milk _ full eq_refl
                  (or_intror (Z.le_refl sqlite.maxRowid))) as (E & _ & Hdb).
    exact (conj E Hdb).
Defined.

Lemma update_write_failure_witness :
  errs writeFails = [false; true]
  /\ sqlite.SELECT_WHERE_id "1" (db writeFails) = Some (rowOf 1 milk)
  /\ code (fst (updateTask go_sqlite3_dates "1" (Some april) writeFails)) = 500
  /\ db (snd (updateTask go_sqlite3_dates "1" (Some april) writeFails)) = db writeFails.
Proof.
  do 2 (split; [reflexivity|]).
  pose proof (update_write_failure go_sqlite3_dates "1" april _ [] writeFails eq_refl eq_refl)
    as (E & Hdb).
  split; [now rewrite E | exact Hdb].
Defined.

Lemma update_reread_failure_witness :
  errs rereadFails = [false; false; true]
  /\ sqlite.SELECT_WHERE_id "1" (db rereadFails) = Some (rowOf 1 milk)
  /\ code (fst (updateTask go_sqlite3_dates "1" (Some april) rereadFails)) = 500
  /\ sqlite.rows (db (snd (updateTask go_sqlite3_dates "1" (Some april) rereadFails)))
     = [rowOf 1 april].
Proof.
  do 2 (split; [reflexivity|]).
  pose proof (update_reread_failure go_sqlite3_dates "1" april _ [] rereadFails eq_refl eq_refl)
    as (E & Hdb & _).
  split; [now rewrite E | now rewrite Hdb].
Defined.

Lemma read_store_failure_witness :
  nextCallFails broken
  /\ sqlite.SELECT_WHERE_id "1" (db broken) = Some (rowOf 1 milk)
  /\ errorKind (fst (retrieveTask go_sqlite3_dates "1" broken)) = Some NotFound
  /\ errorKind (fst (listAllTasks go_sqlite3_dates broken)) = Some StoreFailure.
Proof.
  do 2 (split; [reflexivity|]).
  pose proof (read_store_failure go_sqlite3_dates "1" broken eq_refl) as (R & L & _).
  split; [now rewrite R | now rewrite L].
Defined.

(** ** What a write leaves alone *)

Lemma ascending_no_match lo l hi k :
  ascending lo (map sqlite.id l) hi = true -> k <= lo ->
  filter (fun r => sqlite.id r =? k) l = [].
Proof.
  revert lo. induction l as [|r l IH]; cbn; intros lo Ha Hk; [reflexivity|].
  apply andb_prop in Ha as [Hlt Hrest]. apply Z.ltb_lt in Hlt.
  replace (sqlite.id r =? k) with false by (symmetry; apply Z.eqb_neq; lia).
  apply (IH (sqlite.id r)); [exact Hrest | lia].
Qed.

Lemma ascending_one_match lo l hi k :
  ascending lo (map sqlite.id l) hi = true ->
  (List.length (filter (fun r => (sqlite.id r =? k)%Z) l) <= 1)%nat.
Proof.
  revert lo. induction l as [|r l IH]; cbn; intros lo Ha; [lia|].
  apply andb_prop in Ha as [Hlt Hrest].
  destruct (Z.eqb_spec (sqlite.id r) k) as [E|_].
  - cbn. rewrite (ascending_no_match (sqlite.id r) l hi k Hrest); [cbn; lia | lia].
  - now apply (IH (sqlite.id r)).
Qed.

Lemma filter_split_length {A} (f : A -> bool) l :
  List.length l
  = (List.length (filter f l) + List.length (filter (fun x => negb (f x)) l))%nat.
Proof.
  induction l as [|x l IH]; cbn; [reflexivity|].
  destruct (f x); cbn; lia.
Qed.

Lemma createTask_db_cases payload w :
  db (snd (createTask payload w)) = db w
  \/ exists r,
       db (snd (createTask payload w))
       = {| sqlite.rows := sqlite.rows (db w) ++ [r]; sqlite.seq := sqlite.seq (db w) + 1 |}.
Proof.
  destruct payload as [t|]; [|now left].
  unfold createTask. destruct (time.Parse (DueDate t)) as [d|]; [|now left].
  cbn [Title Description DueDate Status]. unfold bind, ExecInsert, bind.
  destruct (storeError_cases w) as (e & w' & E & Hdb). rewrite E.
  destruct e; [now left|].
  unfold getTable, sqlite.INSERT. rewrite Hdb.
  destruct (sqlite.seq (db w) <? sqlite.maxRowid); [|now left].
  right. cbn. now eexists.
Qed.

Section Frames.

Variable driver : Driver.

Lemma updateTask_db_cases taskID payload w :
  db (snd (updateTask driver taskID payload w)) = db w
  \/ exists t, payload = Some t
       /\ db (snd (updateTask driver taskID payload w))
          = sqlite.UPDATE (Title t) (Description t) (DueDate t) (Status t) taskID (db w).
Proof.
  destruct payload as [t|]; [|now left].
  unfold updateTask, bind.
  pose proof (QueryRowScan_db driver taskID w) as Hdb1.
  destruct (QueryRowScan driver taskID w) as [[existing|] w1]; cbn [snd] in Hdb1;
    [|left; exact Hdb1].
  unfold ExecUpdate, bind.
  destruct (storeError_cases w1) as (e & w2 & E & Hdb2). rewrite E.
  destruct e; [left; cbn; now rewrite Hdb2|].
  right. exists t. split; [reflexivity|].
  unfold getTable, putTable, ret.
  match goal with |- context [QueryRowScan driver taskID ?w3] =>
    pose proof (QueryRowScan_db driver taskID w3) as Hdb3;
    destruct (QueryRowScan driver taskID w3) as [[details|] w4] end;
    unfold JSONreply, ret; cbn [snd db] in *; now rewrite Hdb3, Hdb2, Hdb1.
Qed.

Lemma deleteTask_db_cases taskID w :
  db (snd (deleteTask taskID w)) = db w
  \/ db (snd (deleteTask taskID w)) = snd (sqlite.DELETE taskID (db w)).
Proof.
  unfold deleteTask, ExecDelete, bind.
  destruct (storeError_cases w) as (e & w' & E & Hdb). rewrite E.
  destruct e; [left; exact Hdb|].
  right. unfold getTable, putTable, ret. rewrite Hdb.
  destruct (sqlite.DELETE taskID (db w)) as [n t'] eqn:Ed.
  now destruct (n =? 0).
Qed.

(** X7.  Create never touches a row that is there: whatever the payload,
    the state and the outcome, the table after is the table before with at
    most one row appended, and the counter does not go down. *)
Theorem create_appends (payload : option Task) (w : World) :
  exists tail,
    sqlite.rows (db (snd (createTask payload w))) = (sqlite.rows (db w) ++ tail)%list
    /\ (List.length tail <= 1)%nat
    /\ sqlite.seq (db w) <= sqlite.seq (db (snd (createTask payload w))).
Proof.
  destruct (createTask_db_cases payload w) as [-> | (r & ->)].
  - exists []. rewrite app_nil_r. cbn. repeat split; lia.
  - exists [r]. cbn. repeat split; lia.
Qed.

(** X8.  Update never adds or removes a row and never moves an id: whatever
    the id text, the payload, the state and the outcome, the ids of the rows
    after are the ids before, in the same order, the counter is the same, and
    every row the id text does not address is the row it was. *)
Theorem update_keeps_rows (taskID : string) (payload : option Task) (w : World) :
  map sqlite.id (sqlite.rows (db (snd (updateTask driver taskID payload w))))
  = map sqlite.id (sqlite.rows (db w))
  /\ sqlite.seq (db (snd (updateTask driver taskID payload w))) = sqlite.seq (db w)
  /\ filter (fun r => negb (sqlite.whereId taskID r))
       (sqlite.rows (db (snd (updateTask driver taskID payload w))))
     = filter (fun r => negb (sqlite.whereId taskID r)) (sqlite.rows (db w)).
Proof.
  assert (Hu : forall a b c d t,
    map sqlite.id (sqlite.rows (sqlite.UPDATE a b c d taskID t)) = map sqlite.id (sqlite.rows t)
    /\ filter (fun r => negb (sqlite.whereId taskID r)) (sqlite.rows (sqlite.UPDATE a b c d taskID t))
       = filter (fun r => negb (sqlite.whereId taskID r)) (sqlite.rows t)).
  { intros a b c d t. unfold sqlite.UPDATE. cbn [sqlite.rows]. split.
    - rewrite map_map. apply map_ext. intro r. now destruct (sqlite.whereId taskID r).
    - induction (sqlite.rows t) as [|r l IH]; cbn; [reflexivity|].
      destruct (sqlite.whereId taskID r) eqn:E; cbn.
      + unfold sqlite.whereId in *. cbn [sqlite.id]. rewrite E. cbn. exact IH.
      + rewrite E. cbn. now rewrite IH. }
  destruct (updateTask_db_cases taskID payload w) as [-> | (t & _ & ->)];
    [repeat split|].
  destruct (Hu (Title t) (Description t) (DueDate t) (Status t) (db w)) as [H1 H2].
  repeat split; assumption.
Qed.

(** X9.  Delete removes what the id text addresses and nothing else:
    whatever the outcome, every row the text does not address stays, in
    order, and the counter is the same; in a table as the handlers keep it
    at most one row goes. *)
Theorem delete_removes_only_addressed (taskID : string) (w : World) :
  wf (db w) ->
  filter (fun r => negb (sqlite.whereId taskID r))
    (sqlite.rows (db (snd (deleteTask taskID w))))
  = filter (fun r => negb (sqlite.whereId taskID r)) (sqlite.rows (db w))
  /\ sqlite.seq (db (snd (deleteTask taskID w))) = sqlite.seq (db w)
  /\ (List.length (sqlite.rows (db w))
      <= List.length (sqlite.rows (db (snd (deleteTask taskID w)))) + 1)%nat.
Proof.
  intro Hwf.
  assert (Hone : (List.length (filter (sqlite.whereId taskID) (sqlite.rows (db w))) <= 1)%nat).
  { unfold sqlite.whereId. destruct (sqlite.rowidOfText taskID) as [k|].
    - exact (ascending_one_match 0 _ _ k Hwf).
    - clear. induction (sqlite.rows (db w)); cbn; [lia | assumption]. }
  assert (Hidem : forall l : list sqlite.Row,
    filter (fun r => negb (sqlite.whereId taskID r))
      (filter (fun r => negb (sqlite.whereId taskID r)) l)
    = filter (fun r => negb (sqlite.whereId taskID r)) l).
  { induction l as [|r l IH]; cbn; [reflexivity|].
    destruct (sqlite.whereId taskID r) eqn:E; cbn; [exact IH | now rewrite E, IH]. }
  pose proof (filter_split_length (sqlite.whereId taskID) (sqlite.rows (db w))) as Hlen.
  destruct (deleteTask_db_cases taskID w) as [-> | ->];
    cbn [snd sqlite.DELETE sqlite.rows sqlite.seq];
    repeat split; try reflexivity; try apply Hidem; lia.
Qed.

End Frames.

Lemma delete_removes_only_addressed_witness :
  wf (db shop)
  /\ sqlite.rows (db (snd (deleteTask "7" shop))) = sqlite.rows (db shop)
  /\ (List.length (sqlite.rows (db shop))
      <= List.length (sqlite.rows (db (snd (deleteTask "1" shop)))) + 1)%nat.
Proof.
  split; [reflexivity|]. split; [reflexivity|].
  exact (proj2 (proj2 (delete_removes_only_addressed "1" shop eq_refl))).
Defined.

(** ** The table over the life of the database file *)

Section Lifetime.

Variable driver : Driver.

Lemma dispatch_keeps_wf route w :
  wf (db w) -> wf (db (snd (dispatch driver route w))).
Proof.
  intro Hwf. destruct route as [|[payload|taskID|taskID payload|taskID|]];
    cbn [dispatch serve].
  - exact Hwf.
  - now apply createTask_keeps_wf.
  - now rewrite retrieveTask_db.
  - now apply updateTask_keeps_wf.
  - now apply deleteTask_keeps_wf.
  - now rewrite listAllTasks_db.
Qed.

Lemma dispatch_seq_mono route w :
  sqlite.seq (db w) <= sqlite.seq (db (snd (dispatch driver route w))).
Proof.
  destruct route as [|[payload|taskID|taskID payload|taskID|]]; cbn [dispatch serve].
  - cbn. lia.
  - destruct (createTask_db_cases payload w) as [-> | (r & ->)]; cbn; lia.
  - rewrite retrieveTask_db. lia.
  - destruct (updateTask_db_cases driver taskID payload w) as [-> | (t & _ & ->)]; cbn; lia.
  - destruct (deleteTask_db_cases taskID w) as [-> | ->]; cbn; lia.
  - rewrite listAllTasks_db. lia.
Qed.

Lemma serveAll_keeps routes : forall w,
  wf (db w) ->
  wf (db (serveAll driver routes w))
  /\ sqlite.seq (db w) <= sqlite.seq (db (serveAll driver routes w)).
Proof.
  induction routes as [|route routes IH]; intros w Hwf; cbn [serveAll]; [split; [exact Hwf | lia]|].
  destruct (IH _ (dispatch_keeps_wf route w Hwf)) as [Hwf' Hseq].
  split; [exact Hwf'|]. pose proof (dispatch_seq_mono route w). lia.
Qed.

Lemma main_keeps file outcomes listens routes t :
  wf t -> file = Some t ->
  exists t', main driver file outcomes listens routes = Some t'
             /\ wf t' /\ sqlite.seq t <= sqlite.seq t'.
Proof.
  intros Hwf ->. unfold main.
  destruct outcomes as [|[] es]; cbn [CREATE_TABLE_IF_NOT_EXISTS tl].
  - destruct listens.
    + eexists. split; [reflexivity|]. now apply (serveAll_keeps routes {| db := t; errs := [] |}).
    + exists t. cbn. repeat split; [exact Hwf | lia].
  - exists t. repeat split; [exact Hwf | lia].
  - destruct listens.
    + eexists. split; [reflexivity|]. now apply (serveAll_keeps routes {| db := t; errs := es |}).
    + exists t. cbn. repeat split; [exact Hwf | lia].
Qed.

Lemma main_from_nothing outcomes listens routes t :
  main driver None outcomes listens routes = Some t -> wf t.
Proof.
  unfold main. destruct outcomes as [|[] es]; cbn [CREATE_TABLE_IF_NOT_EXISTS tl];
    try discriminate; destruct listens; intro E; inversion E; subst; clear E;
    try reflexivity.
  - now apply (serveAll_keeps routes {| db := sqlite.empty; errs := [] |}).
  - now apply (serveAll_keeps routes {| db := sqlite.empty; errs := es |}).
Qed.

Lemma lifetime_keeps sessions : forall t,
  wf t ->
  exists t', lifetime driver sessions (Some t) = Some t'
             /\ wf t' /\ sqlite.seq t <= sqlite.seq t'.
Proof.
  induction sessions as [|s sessions IH]; intros t Hwf; cbn [lifetime].
  - exists t. repeat split; [exact Hwf | lia].
  - destruct (main_keeps (Some t) (storeErrors s) (canListen s) (requests s) t Hwf eq_refl)
      as (t1 & -> & Hwf1 & Hseq1).
    destruct (IH t1 Hwf1) as (t2 & E2 & Hwf2 & Hseq2).
    exists t2. repeat split; [exact E2 | exact Hwf2 | lia].
Qed.

(** X10.  Whatever happened to the database file since it was created by a
    first run of [main]: any number of runs of the process, each with its
    requests on any of the six routes, with store calls failing at any point
    and starts failing, the table in the file has positive ids, no two rows
    with the same id, rows in increasing order of id, and no id above the
    AUTOINCREMENT counter. *)
Theorem ids_unique_over_lifetime (sessions : list Session) (t : sqlite.Table) :
  lifetime driver sessions None = Some t ->
  wf t
  /\ NoDup (map sqlite.id (sqlite.rows t))
  /\ (forall r, In r (sqlite.rows t) -> 0 < sqlite.id r <= sqlite.seq t).
Proof.
  assert (Hall : forall t', wf t' ->
    wf t' /\ NoDup (map sqlite.id (sqlite.rows t'))
    /\ (forall r, In r (sqlite.rows t') -> 0 < sqlite.id r <= sqlite.seq t')).
  { intros t' Hwf. split; [exact Hwf|]. split; [now apply table_facts.wf_NoDup|].
    intros r Hin. now apply table_facts.wf_bounds. }
  induction sessions as [|s sessions IH]; cbn [lifetime]; [discriminate|].
  destruct (main driver None (storeErrors s) (canListen s) (requests s)) as [t1|] eqn:E1.
  - apply main_from_nothing in E1.
    destruct (lifetime_keeps sessions t1 E1) as (t2 & E2 & Hwf2 & _).
    rewrite E2. intro E; inversion E; subst. now apply Hall.
  - exact IH.
Qed.

(** X11.  An id is never given out twice.  Take a row of the table in the
    file at some time, and let the process then run any number of times with
    any requests and any failures, the row's deletion included.  A Create
    that succeeds afterwards returns an id larger than the id of that
    row. *)
Theorem ids_never_reused (sessions : list Session) (t t' : sqlite.Table) (r : sqlite.Row)
    (payload : Task) (d : time.Time) (w : World) :
  wf t -> In r (sqlite.rows t) ->
  lifetime driver sessions (Some t) = Some t' -> db w = t' ->
  healthy w -> sqlite.seq t' < sqlite.maxRowid ->
  time.Parse (DueDate payload) = Some d ->
  exists newID w',
    createTask (Some payload) w
    = ({| code := http.StatusCreated;
          body := OneTask {| ID := newID; Title := Title payload;
                             Description := Description payload;
                             DueDate := DueDate payload; Status := Status payload |} |}, w')
    /\ sqlite.id r < newID.
Proof.
  intros Hwf Hin Hlife Hdb Hh Hroom Hp.
  destruct (lifetime_keeps sessions t Hwf) as (t2 & E2 & _ & Hseq).
  rewrite Hlife in E2. inversion E2; subst t2; clear E2.
  subst t'.
  destruct (createTask_healthy payload d w Hh Hroom Hp) as (w' & E & _).
  exists (sqlite.seq (db w) + 1), w'. split; [exact E|].
  pose proof (table_facts.wf_bounds _ _ Hwf Hin). lia.
Qed.


End Lifetime.

Lemma ids_unique_over_lifetime_witness :
  lifetime go_sqlite3_dates twoRuns None
  = Some {| sqlite.rows := [rowOf 2 april; rowOf 3 milk]; sqlite.seq := 3 |}
  /\ NoDup (map sqlite.id [rowOf 2 april; rowOf 3 milk]).
Proof.
  split; [reflexivity|].
  exact (proj1 (proj2 (ids_unique_over_lifetime go_sqlite3_dates twoRuns _ eq_refl))).
Defined.

Lemma ids_never_reused_witness :
  wf (db shop) /\ In (rowOf 1 milk) (sqlite.rows (db shop))
  /\ lifetime go_sqlite3_dates twoRuns (Some (db shop)) = Some (db later)
  /\ exists newID w',
       createTask (Some april) later
       = ({| code := 201;
             body := OneTask {| ID := newID; Title := "Buy oat milk"; Description := "1l";
                                DueDate := "2025-04-01"; Status := "done" |} |}, w')
       /\ 1 < newID.
Proof.
  split; [reflexivity|]. split; [now left|]. split; [reflexivity|].
  exact (ids_never_reused go_sqlite3_dates twoRuns (db shop) (db later) (rowOf 1 milk) april
           (time.Date 2025 4 1) later
           eq_refl (or_introl eq_refl) eq_refl eq_refl eq_refl eq_refl eq_refl).
Defined.


(** ** Which row an id text addresses *)

Lemma bind_ext {A B} (m1 m2 : M A) (k1 k2 : A -> M B) w :
  m1 w = m2 w -> (forall a w', k1 a w' = k2 a w') -> bind m1 k1 w = bind m2 k2 w.
Proof. intros Hm Hk. unfold bind. rewrite Hm. destruct (m2 w). apply Hk. Qed.

Lemma filter_ext_all {A} (f g : A -> bool) l :
  (forall x, f x = g x) -> filter f l = filter g l.
Proof.
  intro Hfg. induction l as [|x l IH]; cbn; [reflexivity|]. now rewrite Hfg, IH.
Qed.

Lemma find_ext_all {A} (f g : A -> bool) l :
  (forall x, f x = g x) -> find f l = find g l.
Proof.
  intro Hfg. induction l as [|x l IH]; cbn; [reflexivity|]. now rewrite Hfg, IH.
Qed.

Section Addressing.

Variable driver : Driver.

(** X13.  The three handlers that take an id agree on what a text
    addresses.  Served by a working store, either the text addresses a row,
    and then Retrieve, Update (with a decoded payload) and Delete all answer
    200, or it addresses none, and then all three answer 404. *)
Theorem handlers_agree_on_id (taskID : string) (t : Task) (w : World) :
  healthy w ->
  (exists r, sqlite.SELECT_WHERE_id taskID (db w) = Some r
     /\ code (fst (retrieveTask driver taskID w)) = http.StatusOK
     /\ code (fst (updateTask driver taskID (Some t) w)) = http.StatusOK
     /\ code (fst (deleteTask taskID w)) = http.StatusOK)
  \/ (sqlite.SELECT_WHERE_id taskID (db w) = None
     /\ code (fst (retrieveTask driver taskID w)) = http.StatusNotFound
     /\ code (fst (updateTask driver taskID (Some t) w)) = http.StatusNotFound
     /\ code (fst (deleteTask taskID w)) = http.StatusNotFound).
Proof.
  intro Hh.
  destruct (retrieveTask_healthy driver taskID w Hh) as (w1 & E1 & _).
  destruct (deleteTask_healthy taskID w Hh) as (w3 & E3 & _).
  destruct (sqlite.SELECT_WHERE_id taskID (db w)) as [r|] eqn:Hs.
  - left. exists r. split; [reflexivity|].
    destruct (updateTask_healthy driver taskID t r w Hh Hs) as (w2 & E2 & _).
    rewrite E1, E2, E3, (table_facts.DELETE_row _ _ _ Hs). repeat split.
  - right. split; [reflexivity|].
    rewrite E1, E3, (table_facts.DELETE_no_row _ _ Hs).
    unfold updateTask, bind. rewrite (QueryRowScan_no_row driver taskID w Hs).
    repeat split.
Qed.

(** Two id texts that SQLite converts to the same integer, or both to none,
    are the same request: the handlers use the text in the comparison with
    the id column and nowhere else. *)
Lemma same_number_same_request (a b : string) (payload : option Task) (w : World) :
  sqlite.rowidOfText a = sqlite.rowidOfText b ->
  retrieveTask driver a w = retrieveTask driver b w
  /\ updateTask driver a payload w = updateTask driver b payload w
  /\ deleteTask a w = deleteTask b w.
Proof.
  intro Hab.
  assert (Hw : forall r, sqlite.whereId a r = sqlite.whereId b r).
  { intro r. unfold sqlite.whereId. now rewrite Hab. }
  assert (Hq : forall w', QueryRowScan driver a w' = QueryRowScan driver b w').
  { intro w'. unfold QueryRowScan. apply bind_ext; [reflexivity|].
    intros [] w''; [reflexivity|]. apply bind_ext; [reflexivity|].
    intros tbl w3. unfold sqlite.SELECT_WHERE_id. now rewrite (find_ext_all _ _ _ Hw). }
  assert (Hu : forall x y z v w', ExecUpdate x y z v a w' = ExecUpdate x y z v b w').
  { intros x y z v w'. unfold ExecUpdate. apply bind_ext; [reflexivity|].
    intros [] w''; [reflexivity|]. apply bind_ext; [reflexivity|].
    intros tbl w3. unfold sqlite.UPDATE.
    replace (map _ (sqlite.rows tbl)) with
      (map (fun r => if sqlite.whereId b r
                     then {| sqlite.id := sqlite.id r; sqlite.title := x;
                             sqlite.description := y; sqlite.due_date := z;
                             sqlite.status := v |}
                     else r) (sqlite.rows tbl)); [reflexivity|].
    apply map_ext. intro r. now rewrite Hw. }
  assert (Hd : forall w', ExecDelete a w' = ExecDelete b w').
  { intro w'. unfold ExecDelete. apply bind_ext; [reflexivity|].
    intros [] w''; [reflexivity|]. apply bind_ext; [reflexivity|].
    intros tbl w3. unfold sqlite.DELETE.
    rewrite (filter_ext_all _ _ _ Hw).
    now rewrite (filter_ext_all (fun r => negb (sqlite.whereId a r))
                   (fun r => negb (sqlite.whereId b r)))
      by (intro r; now rewrite Hw). }
  split; [|split].
  - unfold retrieveTask. now apply bind_ext.
  - destruct payload as [t|]; [|reflexivity]. unfold updateTask.
    apply bind_ext; [apply Hq|]. intros [existing|] w1; [|reflexivity].
    apply bind_ext; [apply Hu|]. intros [] w2; [|reflexivity].
    now apply bind_ext.
  - unfold deleteTask. now apply bind_ext.
Qed.

(** X15.  Update is idempotent.  Served by a working store, an Update of an
    existing id repeated with the same payload gets the same reply as the
    first and leaves the table as the first left it. *)
Theorem update_idempotent (taskID : string) (t : Task) (r : sqlite.Row) (w : World) :
  healthy w -> sqlite.SELECT_WHERE_id taskID (db w) = Some r ->
  fst (updateTask driver taskID (Some t) (snd (updateTask driver taskID (Some t) w)))
  = fst (updateTask driver taskID (Some t) w)
  /\ db (snd (updateTask driver taskID (Some t) (snd (updateTask driver taskID (Some t) w))))
     = db (snd (updateTask driver taskID (Some t) w)).
Proof.
  intros Hh Hs.
  destruct (updateTask_healthy driver taskID t r w Hh Hs) as (w1 & E1 & Hdb1 & Hh1).
  rewrite E1. cbn [fst snd].
  assert (Hs1 : sqlite.SELECT_WHERE_id taskID (db w1) = Some (rowOf (sqlite.id r) t)).
  { rewrite Hdb1. now apply table_facts.SELECT_after_UPDATE. }
  destruct (updateTask_healthy driver taskID t _ w1 Hh1 Hs1) as (w2 & E2 & Hdb2 & _).
  rewrite E2. cbn [fst snd]. split; [reflexivity|].
  rewrite Hdb2, Hdb1. unfold sqlite.UPDATE. cbn [sqlite.rows sqlite.seq]. f_equal.
  rewrite map_map. apply map_ext. intro x.
  destruct (sqlite.whereId taskID x) eqn:E; [|now rewrite E].
  unfold sqlite.whereId in *. cbn [sqlite.id]. now rewrite E.
Qed.

End Addressing.

Lemma handlers_agree_on_id_witness :
  healthy shop
  /\ code (fst (retrieveTask go_sqlite3_dates "1" shop)) = 200
  /\ ((exists r, sqlite.SELECT_WHERE_id "7" (db shop) = Some r
        /\ code (fst (retrieveTask go_sqlite3_dates "7" shop)) = 200
        /\ code (fst (updateTask go_sqlite3_dates "7" (Some april) shop)) = 200
        /\ code (fst (deleteTask "7" shop)) = 200)
      \/ (sqlite.SELECT_WHERE_id "7" (db shop) = None
        /\ code (fst (retrieveTask go_sqlite3_dates "7" shop)) = 404
        /\ code (fst (updateTask go_sqlite3_dates "7" (Some april) shop)) = 404
        /\ code (fst (deleteTask "7" shop)) = 404)).
Proof.
  do 2 (split; [reflexivity|]).
  exact (handlers_agree_on_id go_sqlite3_dates "7" april shop eq_refl).
Defined.

Lemma update_idempotent_witness :
  healthy shop /\ sqlite.SELECT_WHERE_id "1" (db shop) = Some (rowOf 1 milk)
  /\ db (snd (updateTask go_sqlite3_dates "1" (Some april)
                (snd (updateTask go_sqlite3_dates "1" (Some april) shop))))
     = db (snd (updateTask go_sqlite3_dates "1" (Some april) shop)).
Proof.
  do 2 (split; [reflexivity|]).
  exact (proj2 (update_idempotent go_sqlite3_dates "1" april _ shop eq_refl eq_refl)).
Defined.

Lemma invalid_input_touches_nothing_witness :
  errorKind (fst (serve go_sqlite3_dates (PUT "1" None) broken)) = Some InvalidInput
  /\ snd (serve go_sqlite3_dates (PUT "1" None) broken) = broken.
Proof.
  split; [reflexivity|].
  exact (invalid_input_touches_nothing go_sqlite3_dates (PUT "1" None) broken eq_refl).
Defined.

(** ** Ids and dates as the replies spell them *)

Lemma utod_isDigit k :
  0 <= k <= 9 -> time.isDigit (time.utod k) = true /\ time.digit (time.utod k) = k.
Proof.
  intro Hk.
  assert (Hc : k = 0 \/ k = 1 \/ k = 2 \/ k = 3 \/ k = 4 \/ k = 5 \/ k = 6 \/ k = 7
               \/ k = 8 \/ k = 9) by lia.
  repeat (destruct Hc as [-> | Hc]; [split; reflexivity|]). subst. split; reflexivity.
Qed.

Lemma isDigit_plain c rest :
  time.isDigit c = true ->
  sqlite.skipSpaces (String c rest) = String c rest
  /\ sqlite.optionalSign (String c rest) = (false, String c rest).
Proof.
  destruct c as [[] [] [] [] [] [] [] []]; intro Hd; try discriminate Hd; split; reflexivity.
Qed.

Lemma digits_leading f : forall u,
  0 <= u < 10 ^ Z.of_nat (S f) ->
  exists k,
    1 <= k
    /\ forall acc,
         (exists c rest, time.digits (S f) u acc = String c rest /\ time.isDigit c = true)
         /\ forall a n, sqlite.leadingDigits (time.digits (S f) u acc) a n
                        = sqlite.leadingDigits acc (a * 10 ^ k + u) (n + k).
Proof.
  induction f as [|f IH]; intros u Hu.
  - assert (Hlt : u < 10) by (cbn in Hu; lia).
    assert (Hd : u / 10 = 0) by (apply Z.div_small; lia).
    assert (Hm : u mod 10 = u) by (apply Z.mod_small; lia).
    destruct (utod_isDigit u) as [Hi Hv]; [lia|].
    exists 1. split; [lia|]. intro acc. cbn [time.digits]. rewrite Hd, Hm. cbn [Z.eqb].
    split; [now exists (time.utod u), acc|].
    intros a n. cbn [sqlite.leadingDigits]. rewrite Hi, Hv. f_equal; lia.
  - assert (Hmod : 0 <= u mod 10 <= 9) by (pose proof (Z.mod_pos_bound u 10); lia).
    destruct (utod_isDigit (u mod 10) Hmod) as [Hi Hv].
    assert (Hstep : forall acc, time.digits (S (S f)) u acc
      = if u / 10 =? 0 then String (time.utod (u mod 10)) acc
        else time.digits (S f) (u / 10) (String (time.utod (u mod 10)) acc))
      by reflexivity.
    destruct (Z.eqb_spec (u / 10) 0) as [Hd|Hd].
    + exists 1. split; [lia|]. intro acc. rewrite Hstep.
      split; [now exists (time.utod (u mod 10)), acc|].
      intros a n. cbn [sqlite.leadingDigits].
      rewrite Hi, Hv. pose proof (Z.div_mod u 10). f_equal; lia.
    + assert (Hq : 0 <= u / 10 < 10 ^ Z.of_nat (S f)).
      { split; [apply Z.div_pos; lia|].
        apply Z.div_lt_upper_bound; [lia|].
        replace (Z.of_nat (S (S f))) with (Z.succ (Z.of_nat (S f))) in Hu by lia.
        rewrite Z.pow_succ_r in Hu by lia. lia. }
      destruct (IH (u / 10) Hq) as (k & Hk & Hall).
      exists (k + 1). split; [lia|]. intro acc. rewrite Hstep.
      destruct (Hall (String (time.utod (u mod 10)) acc)) as [Hfirst Hl].
      split; [exact Hfirst|].
      intros a n. rewrite Hl. cbn [sqlite.leadingDigits]. rewrite Hi, Hv.
      rewrite Z.pow_add_r by lia. change (10 ^ 1) with 10.
      pose proof (Z.div_mod u 10). f_equal; lia.
Qed.

Lemma enough_fuel n : 0 <= n -> n < 10 ^ Z.of_nat (S (Z.to_nat (Z.log2 n))).
Proof.
  intro Hn. pose proof (Z.log2_nonneg n) as Hl.
  replace (Z.of_nat (S (Z.to_nat (Z.log2 n)))) with (Z.succ (Z.log2 n)) by lia.
  destruct (Z.eq_dec n 0) as [->|Hne]; [reflexivity|].
  assert (Hs : n < 2 ^ Z.succ (Z.log2 n)) by (apply Z.log2_spec; lia).
  assert (Hp : 2 ^ Z.succ (Z.log2 n) <= 10 ^ Z.succ (Z.log2 n))
    by (apply Z.pow_le_mono_l; lia).
  lia.
Qed.

Lemma append_empty s : (s ++ "")%string = s.
Proof. induction s as [|c s IH]; cbn [append]; [reflexivity | now rewrite IH]. Qed.

Lemma digits_append fuel : forall u acc s,
  (time.digits fuel u acc ++ s)%string = time.digits fuel u (acc ++ s)%string.
Proof.
  induction fuel as [|fuel IH]; intros u acc s; cbn [time.digits]; [reflexivity|].
  destruct (u / 10 =? 0); [reflexivity|]. now rewrite IH.
Qed.

(** The decimal spelling of an int that is not negative starts with a digit,
    and reading the digits off it, whatever follows, gives the int back. *)
Lemma Itoa_leading n :
  0 <= n ->
  exists c rest k,
    Itoa n = String c rest /\ time.isDigit c = true /\ 1 <= k
    /\ forall acc a i,
         sqlite.leadingDigits (Itoa n ++ acc) a i
         = sqlite.leadingDigits acc (a * 10 ^ k + n) (i + k).
Proof.
  intro Hn. unfold Itoa.
  replace (n <? 0) with false by (symmetry; apply Z.ltb_ge; exact Hn).
  destruct (digits_leading (Z.to_nat (Z.log2 n)) n (conj Hn (enough_fuel n Hn)))
    as (k & Hk & Hall).
  destruct (Hall "") as [(c & rest & Ec & Hc) _].
  exists c, rest, k. split; [exact Ec|]. split; [exact Hc|]. split; [exact Hk|].
  intros acc a i. rewrite digits_append. cbn [append]. apply Hall.
Qed.

(** A text that, after spaces and with no minus sign, is a run of digits
    and nothing else, is an integer literal. *)
Lemma numericLiteral_integer z z' m k :
  sqlite.optionalSign (sqlite.skipSpaces z) = (false, z') ->
  sqlite.leadingDigits z' 0 0 = (m, k, "") -> 1 <= k ->
  sqlite.numericLiteral z = Some {| sqlite.significand := m; sqlite.exponent := 0;
                                    sqlite.real := false |}.
Proof.
  intros Hs Hl Hk. unfold sqlite.numericLiteral. rewrite Hs, Hl.
  replace (k + 0 =? 0) with false by (symmetry; apply Z.eqb_neq; lia).
  reflexivity.
Qed.

Lemma rowidOfText_integer z m :
  sqlite.numericLiteral z = Some {| sqlite.significand := m; sqlite.exponent := 0;
                                    sqlite.real := false |} ->
  sqlite.minRowid <= m <= sqlite.maxRowid ->
  sqlite.rowidOfText z = Some m.
Proof.
  intros Hl [Hmin Hmax]. unfold sqlite.rowidOfText. rewrite Hl.
  cbn [sqlite.real sqlite.significand negb andb].
  apply Z.leb_le in Hmin, Hmax. now rewrite Hmin, Hmax.
Qed.

(** The decimal spelling of a rowid is read back as that rowid. *)
Lemma rowidOfText_Itoa n :
  0 <= n <= sqlite.maxRowid -> sqlite.rowidOfText (Itoa n) = Some n.
Proof.
  intros [Hn Hmax].
  destruct (Itoa_leading n Hn) as (c & rest & k & Ec & Hc & Hk & Hl).
  apply rowidOfText_integer; [|unfold sqlite.minRowid; lia].
  apply (numericLiteral_integer _ (Itoa n) n k); [| |exact Hk].
  - rewrite Ec. destruct (isDigit_plain c rest Hc) as [-> ->]. reflexivity.
  - specialize (Hl "" 0 0). rewrite append_empty in Hl. rewrite Hl.
    cbn [sqlite.leadingDigits].
    replace (0 * 10 ^ k + n) with n by lia. now replace (0 + k) with k by lia.
Qed.

(** A plus sign, a zero or a space in front of the decimal spelling of a
    rowid does not change the rowid it is read as. *)
Lemma rowidOfText_prefixed n :
  0 <= n <= sqlite.maxRowid ->
  sqlite.rowidOfText ("+" ++ Itoa n) = Some n
  /\ sqlite.rowidOfText ("0" ++ Itoa n) = Some n
  /\ sqlite.rowidOfText (" " ++ Itoa n) = Some n.
Proof.
  intros [Hn Hmax].
  destruct (Itoa_leading n Hn) as (c & rest & k & Ec & Hc & Hk & Hl).
  destruct (isDigit_plain c rest Hc) as [Hsp Hsg].
  assert (Hn0 : sqlite.leadingDigits (Itoa n) 0 0 = (n, k, ""%string)).
  { specialize (Hl "" 0 0). rewrite append_empty in Hl. rewrite Hl.
    cbn [sqlite.leadingDigits].
    replace (0 * 10 ^ k + n) with n by lia. now replace (0 + k) with k by lia. }
  assert (Hrange : sqlite.minRowid <= n <= sqlite.maxRowid)
    by (unfold sqlite.minRowid; lia).
  split; [|split]; apply rowidOfText_integer; try exact Hrange.
  - apply (numericLiteral_integer _ (Itoa n) n k); [reflexivity | exact Hn0 | exact Hk].
  - apply (numericLiteral_integer _ ("0" ++ Itoa n) n (k + 1)); [reflexivity | | lia].
    cbn [append sqlite.leadingDigits].
    change (time.isDigit "0") with true. cbn iota.
    specialize (Hl "" (0 * 10 + time.digit "0") (0 + 1)). rewrite append_empty in Hl.
    rewrite Hl. cbn [sqlite.leadingDigits]. change (time.digit "0") with 0.
    replace ((0 * 10 + 0) * 10 ^ k + n) with n by lia.
    now replace (0 + 1 + k) with (k + 1) by lia.
  - apply (numericLiteral_integer _ (Itoa n) n k); [| exact Hn0 | exact Hk].
    cbn [append sqlite.skipSpaces]. change (sqlite.isspace " ") with true. cbn iota.
    rewrite Ec, Hsp. exact Hsg.
Qed.

(** *** A real literal with an integer value *)

Lemma roundHalfEven_exact a d : 0 < d -> sqlite.roundHalfEven (a * d) d = a.
Proof.
  intro Hd. unfold sqlite.roundHalfEven.
  rewrite Z.mod_mul, Z.div_mul by lia.
  replace (2 * 0 <? d) with true by (symmetry; apply Z.ltb_lt; lia). reflexivity.
Qed.

Lemma log2Ratio_below num den e :
  0 < num -> 0 < den -> 0 <= e -> num < den * 2 ^ e -> sqlite.log2Ratio num den < e.
Proof.
  intros Hnum Hden He Hlt. unfold sqlite.log2Ratio.
  set (l := Z.log2 num - Z.log2 den).
  destruct (Z.log2_spec num Hnum) as [Hn1 Hn2].
  destruct (Z.log2_spec den Hden) as [Hd1 Hd2].
  pose proof (Z.log2_nonneg num) as Hln. pose proof (Z.log2_nonneg den) as Hld.
  destruct (Z_lt_dec l e) as [Hle|Hge].
  - destruct (if 0 <=? l then _ else _); lia.
  - (* l >= e: then the test at l fails, and l - 1 < e *)
    assert (Hl0 : 0 <= l) by lia.
    replace (0 <=? l) with true by (symmetry; apply Z.leb_le; exact Hl0).
    assert (Hpow : 2 ^ e <= 2 ^ l) by (apply Z.pow_le_mono_r; lia).
    assert (Htest : (den * 2 ^ l <=? num) = false).
    { apply Z.leb_gt. nia. }
    rewrite Htest.
    (* l = e exactly: from 2^(log2 num) <= num < den * 2^e < 2^(log2 den + 1 + e) *)
    assert (Hup : 2 ^ Z.log2 num < 2 ^ (Z.succ (Z.log2 den) + e)).
    { rewrite Z.pow_add_r by lia. nia. }
    apply Z.pow_lt_mono_r_iff in Hup; lia.
Qed.

Lemma integerOfReal_point_zero n :
  0 <= n < 2 ^ 53 ->
  sqlite.integerOfReal {| sqlite.significand := n * 10; sqlite.exponent := - 1;
                          sqlite.real := true |} = Some n.
Proof.
  intros [Hn Hlt]. unfold sqlite.integerOfReal.
  cbn [sqlite.significand sqlite.exponent].
  change (Z.max (- 1) 0) with 0. change (Z.max (- - 1) 0) with 1.
  change (10 ^ 0) with 1. change (10 ^ 1) with 10.
  rewrite Z.abs_eq, Z.mul_1_r by lia.
  replace (n * 10 <? 0) with false by (symmetry; apply Z.ltb_ge; lia).
  unfold sqlite.nearestDouble.
  destruct (Z.eqb_spec (n * 10) 0) as [E0|Hne].
  - assert (n = 0) by lia. subst n. reflexivity.
  - assert (Hl : sqlite.log2Ratio (n * 10) 10 < 53)
      by (apply log2Ratio_below; lia).
    set (q := Z.max (sqlite.log2Ratio (n * 10) 10 - 52) (- 1074)).
    assert (Hq : q <= 0) by (subst q; lia).
    destruct (Z.leb_spec 0 q) as [Hq0|Hq0].
    + assert (q = 0) by lia. replace q with 0 by lia.
      change (10 * 2 ^ 0) with 10. rewrite roundHalfEven_exact by lia.
      unfold sqlite.integerOfDouble. cbn [Z.leb Z.compare option_map].
      change (2 ^ 0) with 1. now rewrite Z.mul_1_r.
    + assert (Hp : 0 < 2 ^ (- q)) by (apply Z.pow_pos_nonneg; lia).
      replace (n * 10 * 2 ^ (- q)) with (n * 2 ^ (- q) * 10) by lia.
      rewrite roundHalfEven_exact by lia.
      unfold sqlite.integerOfDouble.
      replace (0 <=? q) with false by (symmetry; apply Z.leb_gt; exact Hq0).
      rewrite Z.mod_mul by lia. cbn [Z.eqb option_map].
      now rewrite Z.div_mul by lia.
Qed.

(** The decimal spelling of an id followed by ".0" is a real literal that
    SQLite converts to that id. *)
Lemma rowidOfText_point_zero n :
  0 <= n < 2 ^ 53 -> sqlite.rowidOfText (Itoa n ++ ".0") = Some n.
Proof.
  intros [Hn Hlt].
  destruct (Itoa_leading n Hn) as (c & rest & k & Ec & Hc & Hk & Hl).
  destruct (isDigit_plain c (rest ++ ".0") Hc) as [Hsp Hsg].
  unfold sqlite.rowidOfText, sqlite.numericLiteral.
  specialize (Hl ".0"%string 0 0).
  rewrite Ec in *. cbn [append] in *. rewrite Hsp, Hsg, Hl.
  change (sqlite.leadingDigits ".0" (0 * 10 ^ k + n) (0 + k))
    with (0 * 10 ^ k + n, 0 + k, ".0"%string).
  cbv iota beta.
  change (sqlite.leadingDigits "0" (0 * 10 ^ k + n) 0)
    with ((0 * 10 ^ k + n) * 10 + 0, 0 + 1, ""%string).
  cbv iota beta.
  replace (0 + k + (0 + 1) =? 0) with false by (symmetry; apply Z.eqb_neq; lia).
  cbn [sqlite.real sqlite.significand negb andb].
  replace ((0 * 10 ^ k + n) * 10 + 0) with (n * 10) by lia.
  change (- (0 + 1)) with (- 1).
  rewrite (integerOfReal_point_zero n (conj Hn Hlt)).
  replace (sqlite.minRowid <? n) with true
    by (symmetry; apply Z.ltb_lt; unfold sqlite.minRowid; lia).
  replace (n <? sqlite.maxRowid) with true
    by (symmetry; apply Z.ltb_lt; unfold sqlite.maxRowid; change (2 ^ 53) with 9007199254740992 in Hlt; lia).
  reflexivity.
Qed.

Lemma find_app_last {A} (f : A -> bool) l y :
  (forall x, In x l -> f x = false) -> f y = true -> find f (l ++ [y]) = Some y.
Proof.
  intros Hl Hy. induction l as [|x l IH]; cbn; [now rewrite Hy|].
  rewrite (Hl x (or_introl eq_refl)). apply IH. intros z Hz. apply Hl. now right.
Qed.

Lemma TrimSuffixZ_cons c a rest :
  TrimSuffixZ (String c (String a rest)) = String c (TrimSuffixZ (String a rest)).
Proof. destruct c as [[] [] [] [] [] [] [] []]; reflexivity. Qed.

Lemma TrimSuffixZ_digit c :
  time.isDigit c = true -> TrimSuffixZ (String c "") = String c "".
Proof.
  destruct c as [[] [] [] [] [] [] [] []]; intro Hd; try discriminate Hd; reflexivity.
Qed.

(** What [time.Parse] accepts: ten bytes that spell a day of the calendar. *)
Lemma Parse_calendar value t :
  time.Parse value = Some t ->
  String.length value = 10%nat
  /\ TrimSuffixZ value = value
  /\ 0 <= time.Year t <= 9999
  /\ 1 <= time.Month t <= 12
  /\ 1 <= time.Day t <= time.daysIn (time.Month t) (time.Year t).
Proof.
  unfold time.Parse.
  destruct value as [|a [|b [|c [|d v1]]]]; cbn [time.longYear]; try discriminate.
  destruct (time.isDigit a) eqn:Ha; cbn [andb]; [|discriminate].
  destruct (time.isDigit b) eqn:Hb; cbn [andb]; [|discriminate].
  destruct (time.isDigit c) eqn:Hc; cbn [andb]; [|discriminate].
  destruct (time.isDigit d) eqn:Hd; cbn [andb]; [|discriminate].
  destruct (time.skip "-" v1) as [v2|] eqn:S1; [|discriminate].
  apply time_facts.skip_dash in S1; subst v1.
  destruct v2 as [|m1 [|m2 v3]]; cbn [time.getnum]; try discriminate.
  destruct (time.isDigit m1) eqn:Hm1; cbn [andb]; [|discriminate].
  destruct (time.isDigit m2) eqn:Hm2; cbn [andb]; [|discriminate].
  destruct ((_ <=? 0) || _) eqn:Hmonth; [discriminate|].
  destruct (time.skip "-" v3) as [v4|] eqn:S2; [|discriminate].
  apply time_facts.skip_dash in S2; subst v3.
  destruct v4 as [|d1 [|d2 v5]]; cbn [time.getnum]; try discriminate.
  destruct (time.isDigit d1) eqn:Hd1; cbn [andb]; [|discriminate].
  destruct (time.isDigit d2) eqn:Hd2; cbn [andb]; [|discriminate].
  destruct v5; [|discriminate].
  destruct ((_ <? 1) || _) eqn:Hday; [discriminate|].
  intro E; inversion E; subst t; clear E. cbn [time.Year time.Month time.Day].
  apply orb_false_elim in Hmonth as [Hmo1 Hmo2], Hday as [Hda1 Hda2].
  apply Z.leb_gt in Hmo1. apply Z.ltb_ge in Hmo2, Hda1, Hda2.
  destruct (time_facts.isDigit_digit a Ha) as [Ra _], (time_facts.isDigit_digit b Hb) as [Rb _],
    (time_facts.isDigit_digit c Hc) as [Rc _], (time_facts.isDigit_digit d Hd) as [Rd _].
  split; [reflexivity|]. split.
  { rewrite !TrimSuffixZ_cons. now rewrite (TrimSuffixZ_digit d2 Hd2). }
  repeat split; lia.
Qed.

Section Spelling.

Variable driver : Driver.

(** X16.  The id of a Create reply finds the task.  After a Create that a
    working store served, a Retrieve whose id text is the decimal spelling of
    the id in the reply, as its JSON gives it, answers 200 with that id and
    the payload's title, description and status, and with the payload's
    due_date as the driver hands it back. *)
Theorem created_id_finds_task (t : Task) (d : time.Time) (w : World) :
  wf (db w) -> healthy w -> sqlite.seq (db w) < sqlite.maxRowid ->
  time.Parse (DueDate t) = Some d ->
  exists newID w',
    createTask (Some t) w
    = ({| code := http.StatusCreated;
          body := OneTask {| ID := newID; Title := Title t; Description := Description t;
                             DueDate := DueDate t; Status := Status t |} |}, w')
    /\ sqlite.rowidOfText (Itoa newID) = Some newID
    /\ fst (retrieveTask driver (Itoa newID) w')
       = {| code := http.StatusOK;
            body := OneTask {| ID := newID; Title := Title t; Description := Description t;
                               DueDate := ScanDate driver (DueDate t);
                               Status := Status t |} |}.
Proof.
  intros Hwf Hh Hroom Hp.
  destruct (createTask_healthy t d w Hh Hroom Hp) as (w' & E & Hdb & Hh').
  pose proof (table_facts.wf_seq _ Hwf) as Hseq.
  set (newID := sqlite.seq (db w) + 1) in *.
  assert (Hk : sqlite.rowidOfText (Itoa newID) = Some newID)
    by (apply rowidOfText_Itoa; subst newID; lia).
  exists newID, w'. split; [exact E|]. split; [exact Hk|].
  destruct (retrieveTask_healthy driver (Itoa newID) w' Hh') as (w'' & E' & _).
  rewrite E', Hdb. unfold sqlite.SELECT_WHERE_id. cbn [sqlite.rows fst].
  rewrite find_app_last; [reflexivity | |].
  - intros x Hin. unfold sqlite.whereId. rewrite Hk.
    pose proof (table_facts.wf_bounds _ _ Hwf Hin). apply Z.eqb_neq. subst newID. lia.
  - unfold sqlite.whereId. rewrite Hk. apply Z.eqb_refl.
Qed.

(** X17.  Create accepts a due_date only when it is a day of the calendar
    written in ten bytes.  A Create that is not answered 400 had a due_date
    of the form YYYY-MM-DD with four digits of year, a month from 01 to 12 and
    a day from 01 to the length of that month in that year (29 for February
    in a leap year). *)
Theorem create_accepts_calendar_days_only (t : Task) (w : World) :
  code (fst (createTask (Some t) w)) <> http.StatusBadRequest ->
  exists year month day,
    DueDate t = time.Format (time.Date year month day)
    /\ String.length (DueDate t) = 10%nat
    /\ 0 <= year <= 9999
    /\ 1 <= month <= 12
    /\ 1 <= day <= time.daysIn month year.
Proof.
  intro Hcode. unfold createTask in Hcode.
  destruct (time.Parse (DueDate t)) as [[year month day]|] eqn:Hp;
    [|exfalso; apply Hcode; reflexivity].
  exists year, month, day.
  destruct (Parse_calendar _ _ Hp) as (Hlen & _ & Hy & Hm & Hd).
  split; [symmetry; exact (time_facts.Format_Parse _ _ Hp)|].
  repeat split; assumption || apply Hy || apply Hm || apply Hd.
Qed.

(** X18.  Under the driver main.go imports, a due_date that is a day of the
    calendar comes back from Retrieve as a timestamp: the stored ten bytes
    followed by "T00:00:00Z".  The other fields come back as stored.  This
    is so for every row a Create wrote. *)
Theorem retrieve_date_as_timestamp (other : string -> string) (taskID : string)
    (r : sqlite.Row) (d : time.Time) (w : World) :
  healthy w -> sqlite.SELECT_WHERE_id taskID (db w) = Some r ->
  time.Parse (sqlite.due_date r) = Some d ->
  fst (retrieveTask (go_sqlite3 other) taskID w)
  = {| code := http.StatusOK;
       body := OneTask {| ID := sqlite.id r; Title := sqlite.title r;
                          Description := sqlite.description r;
                          DueDate := sqlite.due_date r ++ "T00:00:00Z";
                          Status := sqlite.status r |} |}.
Proof.
  intros Hh Hs Hp.
  destruct (retrieveTask_healthy (go_sqlite3 other) taskID w Hh) as (w' & E & _).
  rewrite E, Hs. cbn [fst]. unfold Scan, go_sqlite3. cbn [ScanDate].
  destruct (Parse_calendar _ _ Hp) as (_ & -> & _).
  rewrite Hp. unfold time.FormatRFC3339Nano.
  now rewrite (time_facts.Format_Parse _ _ Hp).
Qed.

(** X14.  An id can be spelled in more than one way.  For an id n, the
    texts "+n", "0n" and " n" (n in decimal, with a plus sign, a zero or a
    space in front) and, for n below 2^53, the text "n.0" are the same
    request as the text "n": Retrieve, Update and Delete give the same reply
    and leave the same state. *)
Theorem id_spellings_same_request (n : Z) (v : string) (payload : option Task) (w : World) :
  0 <= n <= sqlite.maxRowid ->
  In v ["+" ++ Itoa n; "0" ++ Itoa n; " " ++ Itoa n] \/ (n < 2 ^ 53 /\ v = Itoa n ++ ".0") ->
  sqlite.rowidOfText v = Some n
  /\ retrieveTask driver v w = retrieveTask driver (Itoa n) w
  /\ updateTask driver v payload w = updateTask driver (Itoa n) payload w
  /\ deleteTask v w = deleteTask (Itoa n) w.
Proof.
  intros Hn Hv.
  assert (E : sqlite.rowidOfText v = Some n).
  { destruct (rowidOfText_prefixed n Hn) as (Hplus & Hzero & Hspace).
    destruct Hv as [[<- | [<- | [<- | []]]] | [Hlt ->]]; try assumption.
    apply rowidOfText_point_zero. lia. }
  split; [exact E|].
  apply same_number_same_request. now rewrite E, (rowidOfText_Itoa n Hn).
Qed.

End Spelling.

Lemma id_spellings_same_request_witness :
  0 <= 1 <= sqlite.maxRowid /\ Itoa 1 ++ ".0" = "1.0"
  /\ retrieveTask go_sqlite3_dates "1.0" shop = retrieveTask go_sqlite3_dates "1" shop
  /\ deleteTask " 1" shop = deleteTask "1" shop.
Proof.
  split; [split; discriminate|]. split; [reflexivity|].
  split.
  - refine (proj1 (proj2 (id_spellings_same_request go_sqlite3_dates 1 "1.0" None shop _ _))).
    + split; discriminate.
    + right. split; reflexivity.
  - refine (proj2 (proj2 (proj2
      (id_spellings_same_request go_sqlite3_dates 1 " 1" None shop _ _)))).
    + split; discriminate.
    + left. right. right. left. reflexivity.
Defined.

Lemma created_id_finds_task_witness :
  wf (db shop) /\ healthy shop /\ sqlite.seq (db shop) < sqlite.maxRowid
  /\ time.Parse (DueDate april) = Some (time.Date 2025 4 1)
  /\ Itoa 2 = "2"
  /\ exists newID w',
       createTask (Some april) shop
       = ({| code := 201;
             body := OneTask {| ID := newID; Title := "Buy oat milk"; Description := "1l";
                                DueDate := "2025-04-01"; Status := "done" |} |}, w')
       /\ code (fst (retrieveTask go_sqlite3_dates (Itoa newID) w')) = 200.
Proof.
  do 5 (split; [reflexivity|]).
  destruct (created_id_finds_task go_sqlite3_dates april (time.Date 2025 4 1) shop
              eq_refl eq_refl eq_refl eq_refl) as (newID & w' & E & _ & R).
  exists newID, w'. split; [exact E|]. now rewrite R.
Defined.

Lemma create_accepts_calendar_days_only_witness :
  code (fst (createTask (Some milk) fresh)) <> 400
  /\ exists year month day,
       DueDate milk = time.Format (time.Date year month day)
       /\ 1 <= month <= 12.
Proof.
  split; [discriminate|].
  destruct (create_accepts_calendar_days_only milk fresh)
    as (year & month & day & E & _ & _ & Hm & _); [discriminate|].
  exists year, month, day. exact (conj E Hm).
Defined.

Lemma retrieve_date_as_timestamp_witness :
  healthy shop /\ sqlite.SELECT_WHERE_id "1" (db shop) = Some (rowOf 1 milk)
  /\ time.Parse (sqlite.due_date (rowOf 1 milk)) = Some (time.Date 2025 3 10)
  /\ fst (retrieveTask go_sqlite3_dates "1" shop)
     = {| code := 200;
          body := OneTask {| ID := 1; Title := "Buy milk"; Description := "2%";
                             DueDate := "2025-03-10T00:00:00Z"; Status := "open" |} |}.
Proof.
  do 3 (split; [reflexivity|]).
  exact (retrieve_date_as_timestamp _ "1" (rowOf 1 milk) _ shop eq_refl eq_refl eq_refl).
Defined.

(** ** What an error reply says about the table *)

Lemma filter_none_all {A} (f : A -> bool) l :
  filter f l = [] -> filter (fun x => negb (f x)) l = l.
Proof.
  induction l as [|x l IH]; cbn; [reflexivity|].
  destruct (f x); [discriminate|]. cbn. intro E. now rewrite IH.
Qed.

Lemma createTask_codes payload w :
  In (code (fst (createTask payload w))) [201; 400; 500].
Proof. handler_cases; cbn; auto. Qed.

Section ErrorReplies.

Variable driver : Driver.

(** X19.  A reply 404 NotFound means that no row was changed: whatever the
    route, the id text, the payload and the state, the table after a request
    answered 404 is the table before it. *)
Theorem not_found_changes_nothing (req : Request) (w : World) :
  errorKind (fst (serve driver req w)) = Some NotFound ->
  db (snd (serve driver req w)) = db w.
Proof.
  destruct req as [payload|taskID|taskID payload|taskID|]; cbn [serve].
  - intro Hk. exfalso.
    destruct (createTask_codes payload w) as [E|[E|[E|[]]]];
      unfold errorKind in Hk; rewrite <- E in Hk; discriminate Hk.
  - intros _. apply retrieveTask_db.
  - destruct payload as [t|]; [|reflexivity].
    unfold updateTask, bind.
    pose proof (QueryRowScan_db driver taskID w) as Hdb1.
    destruct (QueryRowScan driver taskID w) as [[existing|] w1]; cbn [snd] in Hdb1;
      [|intros _; exact Hdb1].
    unfold ExecUpdate, bind.
    destruct (storeError_cases w1) as (e & w2 & E & Hdb2). rewrite E.
    destruct e; [discriminate|].
    unfold getTable, putTable, ret.
    match goal with |- context [QueryRowScan driver taskID ?w3] =>
      destruct (QueryRowScan driver taskID w3) as [[details|] w4] end; discriminate.
  - unfold deleteTask, ExecDelete, bind.
    destruct (storeError_cases w) as (e & w' & E & Hdb). rewrite E.
    destruct e; [discriminate|].
    unfold getTable, putTable, ret, sqlite.DELETE. rewrite Hdb.
    destruct (Z.eqb_spec (Z.of_nat (List.length (filter (sqlite.whereId taskID)
                                                    (sqlite.rows (db w))))) 0) as [Hz|Hz];
      [|discriminate].
    intros _. cbn.
    assert (Hnil : filter (sqlite.whereId taskID) (sqlite.rows (db w)) = [])
      by (destruct (filter _ _); [reflexivity | cbn in Hz; lia]).
    rewrite (filter_none_all _ _ Hnil). now destruct (db w).
  - intros _. apply listAllTasks_db.
Qed.

(** X20.  A reply 500 StoreFailure from Create, Delete or ListAll means that
    the table is unchanged.  (From Update it does not: see X5.) *)
Theorem store_failure_leaves_table (payload : option Task) (taskID : string) (w : World) :
  (errorKind (fst (createTask payload w)) = Some StoreFailure ->
     db (snd (createTask payload w)) = db w)
  /\ (errorKind (fst (deleteTask taskID w)) = Some StoreFailure ->
     db (snd (deleteTask taskID w)) = db w)
  /\ (errorKind (fst (listAllTasks driver w)) = Some StoreFailure ->
     db (snd (listAllTasks driver w)) = db w).
Proof.
  split; [|split].
  - destruct payload as [t|]; [|discriminate].
    unfold createTask. destruct (time.Parse (DueDate t)) as [d|]; [|discriminate].
    cbn [Title Description DueDate Status]. unfold bind, ExecInsert, bind.
    destruct (storeError_cases w) as (e & w' & E & Hdb). rewrite E.
    destruct e; [intros _; exact Hdb|].
    unfold getTable, sqlite.INSERT. rewrite Hdb.
    destruct (sqlite.seq (db w) <? sqlite.maxRowid); [discriminate | intros _; exact Hdb].
  - unfold deleteTask, ExecDelete, bind.
    destruct (storeError_cases w) as (e & w' & E & Hdb). rewrite E.
    destruct e; [intros _; exact Hdb|].
    unfold getTable, putTable, ret.
    destruct (sqlite.DELETE taskID (db w')) as [n t']. now destruct (n =? 0).
  - intros _. apply listAllTasks_db.
Qed.

End ErrorReplies.

Lemma not_found_changes_nothing_witness :
  errorKind (fst (serve go_sqlite3_dates (DELETE "7") shop)) = Some NotFound
  /\ db (snd (serve go_sqlite3_dates (DELETE "7") shop)) = db shop.
Proof.
  split; [reflexivity|].
  exact (not_found_changes_nothing go_sqlite3_dates (DELETE "7") shop eq_refl).
Defined.

Lemma store_failure_leaves_table_witness :
  errorKind (fst (createTask (Some milk) full)) = Some StoreFailure
  /\ errorKind (fst (deleteTask "1" broken)) = Some StoreFailure
  /\ db (snd (createTask (Some milk) full)) = db full
  /\ db (snd (deleteTask "1" broken)) = db broken.
Proof.
  do 2 (split; [reflexivity|]).
  pose proof (store_failure_leaves_table go_sqlite3_dates (Some milk) "1") as Hs.
  split.
  - exact (proj1 (Hs full) eq_refl).
  - exact (proj1 (proj2 (Hs broken)) eq_refl).
Defined.
